(** * jc.parsers.vmstat_s: the streaming `vmstat` parser

    A shallow embedding of [src/jc/parsers/vmstat_s.py] (functions
    [_process] and [parse]) and the properties of its line-by-line state
    machine.

    Python values are modelled as follows.
    - [str] is [string], a sequence of characters with code points below 256;
    - the parser's five local flags form the record [state];
    - a [dict] is an association list in insertion order, as Python keeps it;
    - an exception is a value of [exn]; a computation that may raise returns
      [result A], with [inl e] for [raise e];
    - the generator [parse] is the fold [loop] over the input elements: it
      returns the values yielded so far and how the generator ended
      ([None]: the input was exhausted, [Some e]: [e] escaped). *)

From Stdlib Require Import String Ascii List ZArith Bool Arith Lia DecimalString.
Import ListNotations.
Open Scope string_scope.
Open Scope list_scope.

(** ** Python text primitives *)

Module PyStr.

(** [str.isspace] on one character, for code points below 256. *)
Definition is_space (c : ascii) : bool :=
  let n := nat_of_ascii c in
  (((9 <=? n) && (n <=? 13)) || ((28 <=? n) && (n <=? 32))
   || (n =? 133) || (n =? 160))%nat.

Fixpoint lstrip (s : string) : string :=
  match s with
  | EmptyString => EmptyString
  | String c t => if is_space c then lstrip t else s
  end.

Fixpoint rstrip (s : string) : string :=
  match s with
  | EmptyString => EmptyString
  | String c t =>
      match rstrip t with
      | EmptyString => if is_space c then EmptyString else String c EmptyString
      | t' => String c t'
      end
  end.

(** [s.strip()] *)
Definition strip (s : string) : string := rstrip (lstrip s).

(** [s.startswith(p)] *)
Definition startswith (p s : string) : bool := String.prefix p s.

(** [p in s] for two strings. *)
Fixpoint str_in (p s : string) : bool :=
  String.prefix p s ||
  match s with
  | EmptyString => false
  | String _ t => str_in p t
  end.

(** The longest whitespace-free prefix of [s] and what follows it. *)
Fixpoint span_word (s : string) : string * string :=
  match s with
  | EmptyString => (EmptyString, EmptyString)
  | String c t =>
      if is_space c then (EmptyString, s)
      else let (w, r) := span_word t in (String c w, r)
  end.

(** [s.split(maxsplit=maxcount)] with no separator: at most [maxcount]
    words are cut off; what is left, with its leading whitespace removed,
    is the last item when it is not empty. *)
Fixpoint split_ws (maxcount : nat) (s : string) : list string :=
  match lstrip s with
  | EmptyString => []
  | String c t as r =>
      match maxcount with
      | O => [r]
      | S k => let (w, rest) := span_word r in w :: split_ws k rest
      end
  end.

(** [s.split()]: no limit on the number of cuts.  A string of [n] characters
    holds at most [n] words, so the bound [n] is never reached. *)
Definition split (s : string) : list string := split_ws (String.length s) s.

(** [l[-1]] *)
Fixpoint last_item (l : list string) : option string :=
  match l with
  | [] => None
  | [x] => Some x
  | _ :: l' => last_item l'
  end.

Definition no_space (s : string) : Prop :=
  forall c, In c (list_ascii_of_string s) -> is_space c = false.

End PyStr.

Import PyStr.

(** ** Values, dictionaries and exceptions *)

(** What a field of an output dictionary holds: [None], a token, or the
    integer a token was converted to. *)
Inductive value : Type :=
| VNone
| VStr (s : string)
| VInt (z : Z).

(** An object the caller may hand over as one element of the input. *)
Inductive pyobj : Type :=
| PyStr (s : string)
| PyBytes (b : string)
| PyInt (z : Z)
| PyNone.

(** The argument [data]: an iterable of elements (a list, a file, the result
    of [str.splitlines]), or a single object passed by mistake. *)
Inductive pydata : Type :=
| Iter (items : list pyobj)
| Obj (o : pyobj).

Inductive exn : Type :=
| TypeError (msg : string)
| IndexError
| KeyError (key : string)
| ParseError (msg : string)
| ConversionFault (token : string)
| TimestampFault (text : string).

Definition result (A : Type) : Type := (exn + A)%type.

Definition ret {A : Type} (a : A) : result A := inr a.
Definition raise {A : Type} (e : exn) : result A := inl e.
Definition bind {A B : Type} (m : result A) (k : A -> result B) : result B :=
  match m with
  | inl e => inl e
  | inr a => k a
  end.

Notation "x <- m ;; k" := (bind m (fun x => k))
  (at level 61, m at next level, right associativity).

Module Dict.

Definition dict : Type := list (string * value).

(** [d[k]] as an [option]; [None] stands for a missing key. *)
Fixpoint get (k : string) (d : dict) : option value :=
  match d with
  | [] => None
  | (k', v) :: d' => if String.eqb k k' then Some v else get k d'
  end.

(** [k in d] *)
Definition has_key (k : string) (d : dict) : bool :=
  match get k d with Some _ => true | None => false end.

(** [d[k] = v]: an existing key keeps its place, a new one goes last. *)
Fixpoint set (k : string) (v : value) (d : dict) : dict :=
  match d with
  | [] => [(k, v)]
  | (k', v') :: d' =>
      if String.eqb k k' then (k', v) :: d' else (k', v') :: set k v d'
  end.

(** [d[k]], raising [KeyError] when [k] is missing. *)
Definition lookup (k : string) (d : dict) : result value :=
  match get k d with
  | Some v => ret v
  | None => raise (KeyError k)
  end.

(** A dictionary display [{k1: e1, k2: e2, ...}]: the expressions are
    evaluated from left to right and the first exception escapes. *)
Fixpoint display (items : list (string * result value)) : result dict :=
  match items with
  | [] => ret []
  | (k, e) :: rest =>
      v <- e ;; d <- display rest ;; ret ((k, v) :: d)
  end.

End Dict.

Import Dict.

(** Truth value of an object in a condition. *)
Definition truthy (v : value) : bool :=
  match v with
  | VNone => false
  | VStr s => negb (String.eqb s "")
  | VInt z => negb (Z.eqb z 0)
  end.

(** Truth value of a flag that is [None], [True] or [False]. *)
Definition flag (b : option bool) : bool :=
  match b with
  | Some true => true
  | _ => false
  end.

(** ** The output of the generator *)

(** One yielded value.  [Success] is what [stream_success] returns and
    [Error] what [stream_error] returns; with [ignore_exceptions] set the
    tag is the [success] entry of the [_jc_meta] object of the schema. *)
Inductive output : Type :=
| Success (rec : dict)
| Error (message : exn) (raw_line : pyobj).

(** Modelled from the spec: [jc.utils.stream_success], which is not among the
    sources.  It tags the record as a success and cannot fail. *)
Definition stream_success (output_line : dict) (ignore_exceptions : bool)
  : output := Success output_line.

(** Modelled from the spec: [jc.utils.stream_error], which is not among the
    sources.  The caller's switch decides between an inline [Error] value
    carrying the message and the raw line, and letting the exception go up.
    The docstring of the parser tells which way the switch works: the
    [_jc_meta] object with its [error] and [line] entries exists only with
    [ignore_exceptions=True] (ignore parsing exceptions if True). *)
Definition stream_error (e : exn) (ignore_exceptions : bool) (line : pyobj)
  : result output :=
  if ignore_exceptions then ret (Error e line) else raise e.

(** ** Numeric coercion *)

Definition digit_of (c : ascii) : option Z :=
  let n := nat_of_ascii c in
  if ((48 <=? n) && (n <=? 57))%nat then Some (Z.of_nat (n - 48)) else None.

Fixpoint digits_val (acc : Z) (s : string) : option Z :=
  match s with
  | EmptyString => Some acc
  | String c t =>
      match digit_of c with
      | Some d => digits_val (10 * acc + d) t
      | None => None
      end
  end.

(** The integer written by a token: an optional sign and decimal digits. *)
Definition parse_int (s : string) : option Z :=
  match s with
  | EmptyString => None
  | String "-" EmptyString | String "+" EmptyString => None
  | String "-" t => option_map Z.opp (digits_val 0 t)
  | String "+" t => digits_val 0 t
  | _ => digits_val 0 s
  end.

(** Modelled from the spec: [jc.utils.convert_to_int], which is not among the
    sources.  A token is parsed as an integer and one that does not parse is
    a conversion fault; null stays null; an integer is returned as it is. *)
Definition convert_to_int (v : value) : result value :=
  match v with
  | VNone => ret VNone
  | VInt z => ret (VInt z)
  | VStr s =>
      match parse_int s with
      | Some z => ret (VInt z)
      | None => raise (ConversionFault s)
      end
  end.

(** ** Parser state *)

(** The local variables of [parse] that live across iterations.  Each starts
    as [None]. *)
Record state : Type := mkState {
  procs : option bool;
  buff_cache : option bool;
  disk : option bool;
  tstamp : option bool;
  tz : option string
}.

Definition init : state := mkState None None None None None.

Definition set_procs (st : state) (tsf : bool) : state :=
  mkState (Some true) (buff_cache st) (disk st) (Some tsf) (tz st).

Definition set_disk (st : state) (tsf : bool) : state :=
  mkState (procs st) (buff_cache st) (Some true) (Some tsf) (tz st).

Definition set_buff_cache (st : state) (b : bool) : state :=
  mkState (procs st) (Some b) (disk st) (tstamp st) (tz st).

Definition set_tz (st : state) (z : option string) : state :=
  mkState (procs st) (buff_cache st) (disk st) (tstamp st) z.

(** What one pass through the body of the [try] ends with. *)
Inductive signal : Type :=
| Continue
| Yield (d : dict)
| Raise (e : exn).

(** [line_list[i]] *)
Definition item (line_list : list string) (i : nat) : result value :=
  match nth_error line_list i with
  | Some t => ret (VStr t)
  | None => raise IndexError
  end.

(** [tz or None] *)
Definition tz_or_none (z : option string) : value :=
  match z with
  | Some s => if String.eqb s "" then VNone else VStr s
  | None => VNone
  end.

(** [line.strip().split()[-1] if tstamp else None] *)
Definition capture_tz (st : state) (line : string)
  : result (option string) :=
  if flag (tstamp st) then
    match last_item (split (strip line)) with
    | Some t => ret (Some t)
    | None => raise IndexError
    end
  else ret None.

(** The dictionary display of lines 200-222. *)
Definition procs_record (st : state) (line_list : list string)
  : result dict :=
  let bc := flag (buff_cache st) in
  display
    [ ("runnable_procs", item line_list 0);
      ("uninterruptible_sleeping_procs", item line_list 1);
      ("virtual_mem_used", item line_list 2);
      ("free_mem", item line_list 3);
      ("buffer_mem", if bc then item line_list 4 else ret VNone);
      ("cache_mem", if bc then item line_list 5 else ret VNone);
      ("inactive_mem", if negb bc then item line_list 4 else ret VNone);
      ("active_mem", if negb bc then item line_list 5 else ret VNone);
      ("swap_in", item line_list 6);
      ("swap_out", item line_list 7);
      ("blocks_in", item line_list 8);
      ("blocks_out", item line_list 9);
      ("interrupts", item line_list 10);
      ("context_switches", item line_list 11);
      ("user_time", item line_list 12);
      ("system_time", item line_list 13);
      ("idle_time", item line_list 14);
      ("io_wait_time", item line_list 15);
      ("stolen_time", item line_list 16);
      ("timestamp",
        if flag (tstamp st) then item line_list 17 else ret VNone);
      ("timezone", ret (tz_or_none (tz st))) ].

(** The dictionary display of lines 227-241. *)
Definition disk_record (st : state) (line_list : list string)
  : result dict :=
  display
    [ ("disk", item line_list 0);
      ("total_reads", item line_list 1);
      ("merged_reads", item line_list 2);
      ("sectors_read", item line_list 3);
      ("reading_ms", item line_list 4);
      ("total_writes", item line_list 5);
      ("merged_writes", item line_list 6);
      ("sectors_written", item line_list 7);
      ("writing_ms", item line_list 8);
      ("current_io", item line_list 9);
      ("io_seconds", item line_list 10);
      ("timestamp",
        if flag (tstamp st) then item line_list 11 else ret VNone);
      ("timezone", ret (tz_or_none (tz st))) ].

(** Lines 197-241: [output_line] starts as the empty dictionary and is
    replaced under [if procs:] and again under [if disk:]. *)
Definition line_parsing (st : state) (line : string) : result dict :=
  o1 <- (if flag (procs st)
         then procs_record st (split_ws 17 (strip line))
         else ret []) ;;
  if flag (disk st)
  then disk_record st (split_ws 11 (strip line))
  else ret o1.

(** The three header shapes of lines 182, 187 and 192. *)
Definition is_buff_cache_header (line : string) : bool :=
  str_in "swpd" line && str_in "free" line
  && str_in "buff" line && str_in "cache" line.

Definition is_inact_active_header (line : string) : bool :=
  str_in "swpd" line && str_in "free" line
  && str_in "inact" line && str_in "active" line.

Definition is_disk_header (line : string) : bool :=
  str_in "total" line && str_in "merged" line && str_in "sectors" line.

Definition int_list : list string :=
  [ "runnable_procs"; "uninterruptible_sleeping_procs"; "virtual_mem_used";
    "free_mem"; "buffer_mem"; "cache_mem"; "inactive_mem"; "active_mem";
    "swap_in"; "swap_out"; "blocks_in"; "blocks_out"; "interrupts";
    "context_switches"; "user_time"; "system_time"; "idle_time";
    "io_wait_time"; "stolen_time"; "total_reads"; "merged_reads";
    "sectors_read"; "reading_ms"; "total_writes"; "merged_writes";
    "sectors_written"; "writing_ms"; "current_io"; "io_seconds" ].

(** [key in int_list] *)
Definition in_int_list (key : string) : bool :=
  existsb (String.eqb key) int_list.

(** The loop of lines 117-119: the keys are visited in order and the value
    of each key of [int_list] is replaced by its conversion. *)
Fixpoint convert_fields (d : dict) : result dict :=
  match d with
  | [] => ret []
  | (k, v) :: d' =>
      v' <- (if in_int_list k then convert_to_int v else ret v) ;;
      r <- convert_fields d' ;;
      ret ((k, v') :: r)
  end.

(** How an f-string writes a value. *)
Definition format (v : value) : string :=
  match v with
  | VNone => "None"
  | VStr s => s
  | VInt z => DecimalString.NilZero.string_of_int (Z.to_int z)
  end.

(** The text after the last blank of [s]; all of [s] when it has none. *)
Fixpoint zone_text (s : string) : string :=
  match s with
  | EmptyString => EmptyString
  | String c t =>
      if str_in " " t then zone_text t
      else if Ascii.eqb c " " then t else s
  end.

(** The designator of Coordinated Universal Time. *)
Definition utc_designator : string := "UTC".

(** The two attributes of a [jc.utils.timestamp] object that are read. *)
Record timestamp_obj : Type := mkTimestamp {
  naive : value;
  utc : value
}.

(** ** The parser *)

Section Parser.

(** The resolution of a date and time text to seconds since the epoch, read
    in the local zone of the machine (first component) and as Coordinated
    Universal Time (second component); [None] when the text cannot be
    resolved.  It depends on the machine and is left open. *)
Variable resolve : string -> option (Z * Z).

(** Modelled from the spec: [jc.utils.timestamp], which is not among the
    sources.  The text always resolves to a naive epoch or is a timestamp
    fault; the aware epoch is given only when the zone text is literally the
    designator of Coordinated Universal Time. *)
Definition timestamp (text : string) : result timestamp_obj :=
  match resolve text with
  | None => raise (TimestampFault text)
  | Some (n, u) =>
      ret (mkTimestamp (VInt n)
             (if String.eqb (zone_text text) utc_designator
              then VInt u else VNone))
  end.

(** Lines 99-126. *)
Definition _process (proc_data : dict) : result dict :=
  d1 <- convert_fields proc_data ;;
  t <- lookup "timestamp" d1 ;;
  if truthy t then
    z <- lookup "timezone" d1 ;;
    ts <- timestamp (format t ++ " " ++ format z) ;;
    ret (set "epoch_utc" (utc ts) (set "epoch" (naive ts) d1))
  else ret d1.

(** Lines 182-194, after the header shape is recognised: the time zone is
    taken from the line and the iteration ends. *)
Definition header_tz (st : state) (line : string) : state * signal :=
  match capture_tz st line with
  | inl e => (st, Raise e)
  | inr z => (set_tz st z, Continue)
  end.

(** Lines 243-246: the record is yielded, raw or processed; an empty
    [output_line] is not vmstat data. *)
Definition emit_record (raw : bool) (st : state) (line : string) : signal :=
  match line_parsing st line with
  | inl e => Raise e
  | inr [] => Raise (ParseError "Not vmstat data")
  | inr output_line =>
      if raw then Yield output_line
      else
        match _process output_line with
        | inl e => Raise e
        | inr d => Yield d
        end
  end.

(** Lines 161-246: the body of the [try] for one element, from the state
    before it to the state after it and the way the body ends. *)
Definition body (raw : bool) (st : state) (line : pyobj) : state * signal :=
  match line with
  | PyStr s =>
      if String.eqb (strip s) "" then (st, Continue)
      else if negb (flag (procs st)) && negb (flag (disk st))
              && startswith "procs" s
      then (set_procs st (str_in "-timestamp-" s), Continue)
      else if negb (flag (procs st)) && negb (flag (disk st))
              && startswith "disk" s
      then (set_disk st (str_in "-timestamp-" s), Continue)
      else if (flag (procs st) || flag (disk st))
              && (startswith "procs" s || startswith "disk" s)
      then (st, Continue)
      else if is_buff_cache_header s
      then header_tz (set_buff_cache st true) s
      else if is_inact_active_header s
      then header_tz (set_buff_cache st false) s
      else if is_disk_header s
      then header_tz st s
      else (st, emit_record raw st s)
  | _ => (st, Raise (TypeError "Input line must be a 'str' object."))
  end.

(** Lines 158-249: the [for] loop.  The result is the list of the values
    yielded and the exception that ended the generator, if any. *)
Fixpoint loop (raw ignore_exceptions : bool) (st : state)
  (data : list pyobj) : list output * option exn :=
  match data with
  | [] => ([], None)
  | line :: rest =>
      match body raw st line with
      | (st', Continue) => loop raw ignore_exceptions st' rest
      | (st', Yield d) =>
          let (outs, e) := loop raw ignore_exceptions st' rest in
          (stream_success d ignore_exceptions :: outs, e)
      | (st', Raise e) =>
          match stream_error e ignore_exceptions line with
          | inl e' => ([], Some e')
          | inr o =>
              let (outs, e'') := loop raw ignore_exceptions st' rest in
              (o :: outs, e'')
          end
      end
  end.

(** Line 149: [hasattr(data, '__iter__')] and
    [isinstance(data, (str, bytes))]. *)
Definition has_iter (data : pydata) : bool :=
  match data with
  | Iter _ | Obj (PyStr _) | Obj (PyBytes _) => true
  | Obj _ => false
  end.

Definition is_str_or_bytes (data : pydata) : bool :=
  match data with
  | Obj (PyStr _) | Obj (PyBytes _) => true
  | _ => false
  end.

(** The elements [for line in data] goes through.  Only an [Iter] gets
    past the test of line 149. *)
Definition elements (data : pydata) : list pyobj :=
  match data with
  | Iter items => items
  | Obj _ => []
  end.

(** Lines 129-249.  The compatibility notice of line 148 has no part in the
    result and is left out, with the argument [quiet] that governs it. *)
Definition parse (data : pydata) (raw ignore_exceptions : bool)
  : list output * option exn :=
  if negb (has_iter data) || is_str_or_bytes data
  then ([], Some (TypeError
                    "Input data must be a non-string iterable object."))
  else loop raw ignore_exceptions init (elements data).

(** The call [parse(data)]: every keyword argument at its default. *)
Definition parse_default (data : pydata) : list output * option exn :=
  parse data false false.

(** The state the loop is in after the elements [data]. *)
Definition state_after (raw : bool) (st : state) (data : list pyobj)
  : state :=
  fold_left (fun s x => fst (body raw s x)) data st.

(** What the generator yields for one element when the caller has set
    [ignore_exceptions]: nothing, a success or an inline error. *)
Definition line_output (raw : bool) (st : state) (x : pyobj)
  : option output :=
  match snd (body raw st x) with
  | Continue => None
  | Yield d => Some (stream_success d true)
  | Raise e => Some (Error e x)
  end.

End Parser.

(** ** Words of the specification, as predicates on the input *)

(** A blank line: text that is empty once stripped. *)
Definition is_blank (x : pyobj) : bool :=
  match x with
  | PyStr s => String.eqb (strip s) ""
  | _ => false
  end.

(** A marker line announces a family. *)
Definition is_marker (s : string) : bool :=
  startswith "procs" s || startswith "disk" s.

(** A header line lists column names. *)
Definition is_header (s : string) : bool :=
  is_buff_cache_header s || is_inact_active_header s || is_disk_header s.

(** A non-blank marker or header line. *)
Definition consumed (x : pyobj) : bool :=
  match x with
  | PyStr s => negb (String.eqb (strip s) "") && (is_marker s || is_header s)
  | _ => false
  end.

(** An element that is neither blank nor a marker or header line. *)
Definition emitting (x : pyobj) : bool :=
  negb (is_blank x) && negb (consumed x).

Definition is_str (x : pyobj) : bool :=
  match x with
  | PyStr _ => true
  | _ => false
  end.

Definition is_success (o : output) : bool :=
  match o with
  | Success _ => true
  | Error _ _ => false
  end.

(** The values an optional value stands for: one or none. *)
Definition opt_list {A : Type} (o : option A) : list A :=
  match o with
  | Some a => [a]
  | None => []
  end.

(** The family has been set by a marker line. *)
Definition family_set (st : state) : bool :=
  flag (procs st) || flag (disk st).

(** The tokens the field extractor cuts a data line into. *)
Definition tokens (st : state) (line : string) : list string :=
  if flag (disk st) then split_ws 11 (strip line)
  else split_ws 17 (strip line).

(** The least number of tokens a data line of the family needs. *)
Definition min_tokens (st : state) : nat :=
  (if flag (disk st) then 11 else 17) + (if flag (tstamp st) then 1 else 0).

(** What holds of the state all along a stream: the two families exclude
    each other, and a captured zone code is one token of a header. *)
Definition wf (st : state) : Prop :=
  flag (procs st) && flag (disk st) = false
  /\ match tz st with
     | None => True
     | Some t => no_space t /\ t <> ""
     end.

(** The expression a display gives for a key. *)
Fixpoint assoc (k : string) (items : list (string * result value))
  : option (result value) :=
  match items with
  | [] => None
  | (k', e) :: rest => if String.eqb k k' then Some e else assoc k rest
  end.

(** No field declared numeric holds text any more. *)
Definition normalized (d : dict) : Prop :=
  forall k v, In (k, v) d -> in_int_list k = true ->
              v = VNone \/ exists z, v = VInt z.

(** A field of a record holds the token [tok]: as text in raw mode, as the
    integer it writes otherwise. *)
Definition holds_token (raw : bool) (v : option value) (tok : string)
  : Prop :=
  if raw then v = Some (VStr tok)
  else exists z, parse_int tok = Some z /\ v = Some (VInt z).

(** No element of [data] raises, from the state [st] on: the generator
    goes through [data] without meeting a fault. *)
Fixpoint faultless (resolve : string -> option (Z * Z)) (raw : bool)
  (st : state) (data : list pyobj) : bool :=
  match data with
  | [] => true
  | x :: rest =>
      match body resolve raw st x with
      | (_, Raise _) => false
      | (st', _) => faultless resolve raw st' rest
      end
  end.

Definition is_some {A : Type} (o : option A) : bool :=
  match o with
  | Some _ => true
  | None => false
  end.

(** The positions of the tokens that go to fields declared numeric. *)
Definition numeric_slots (st : state) : list nat :=
  if flag (disk st) then seq 1 10 else seq 0 17.

(** The token at position [i], when there is one, writes an integer. *)
Definition token_ok (toks : list string) (i : nat) : bool :=
  match nth_error toks i with
  | Some t => is_some (parse_int t)
  | None => true
  end.

(** A valid data line of the current family: neither blank nor a marker or
    header line, the family set, and the tokens the family needs.  Outside
    raw mode the line must normalize too: the tokens of the numeric fields
    write integers and, only when timestamps are on, the timestamp token
    resolves with the captured zone code. *)
Definition valid_line (resolve : string -> option (Z * Z)) (raw : bool)
  (st : state) (s : string) : bool :=
  let toks := tokens st s in
  emitting (PyStr s) && family_set st
  && (min_tokens st <=? length toks)%nat
  && (raw
      || (forallb (token_ok toks) (numeric_slots st)
          && (negb (flag (tstamp st))
              || match nth_error toks (min_tokens st - 1) with
                 | Some t =>
                     is_some (resolve (t ++ " " ++
                                       format (tz_or_none (tz st)))%string)
                 | None => false
                 end))).

(** ** Sample input *)

Module Sample.

(** A resolver for the examples: every text is the instant
    2021-09-16 20:33:13 UTC, on a machine seven hours behind. *)
Definition resolve (text : string) : option (Z * Z) :=
  Some (1631849593 + 25200, 1631849593)%Z.

Definition procs_marker : string :=
  "procs -----------memory---------- ---swap-- -----io---- -system-- ------cpu-----".

Definition procs_marker_t : string :=
  "procs -----------memory---------- ---swap-- -----io---- -system-- ------cpu----- -----timestamp-----".

Definition disk_marker : string :=
  "disk- ------------reads------------ ------------writes----------- -----IO------".

Definition buff_cache_header : string :=
  " r  b   swpd   free   buff  cache   si   so    bi    bo   in   cs us sy id wa st".

Definition inact_active_header : string :=
  " r  b   swpd   free  inact active   si   so    bi    bo   in   cs us sy id wa st".

Definition buff_cache_header_utc : string :=
  " r  b   swpd   free   buff  cache   si   so    bi    bo   in   cs us sy id wa st                 UTC".

Definition buff_cache_header_pdt : string :=
  " r  b   swpd   free   buff  cache   si   so    bi    bo   in   cs us sy id wa st                 PDT".

Definition disk_header : string :=
  "       total merged sectors      ms  total merged sectors      ms    cur    sec".

Definition procs_line : string :=
  " 2  0      0 2794468   2108 741208    0    0     1     3   29   57  0  0 99  0  0".

Definition procs_line_t : string :=
  " 2  0      0 2794468   2108 741208    0    0     1     3   29   57  0  0 99  0  0 2021-09-16 20:33:13".

Definition disk_line : string :=
  "sda    18099     89 2538930   11375  17559  11594 1622256   52493      0     19".

Definition short_line : string := " 2  0      0 2794468   2108".

(** A raw record with a timestamp, as the field extractor builds it. *)
Definition raw_record_t : dict :=
  [ ("free_mem", VStr "2794468"); ("buffer_mem", VStr "2108");
    ("inactive_mem", VNone);
    ("timestamp", VStr "2021-09-16 20:33:13"); ("timezone", VStr "UTC") ].

Definition normalized_record_t : dict :=
  [ ("free_mem", VInt 2794468); ("buffer_mem", VInt 2108);
    ("inactive_mem", VNone);
    ("timestamp", VStr "2021-09-16 20:33:13"); ("timezone", VStr "UTC");
    ("epoch", VInt 1631874793); ("epoch_utc", VInt 1631849593) ].

Definition procs_record_bc : dict :=
  [ ("runnable_procs", VInt 2); ("uninterruptible_sleeping_procs", VInt 0);
    ("virtual_mem_used", VInt 0); ("free_mem", VInt 2794468);
    ("buffer_mem", VInt 2108); ("cache_mem", VInt 741208);
    ("inactive_mem", VNone); ("active_mem", VNone);
    ("swap_in", VInt 0); ("swap_out", VInt 0);
    ("blocks_in", VInt 1); ("blocks_out", VInt 3);
    ("interrupts", VInt 29); ("context_switches", VInt 57);
    ("user_time", VInt 0); ("system_time", VInt 0);
    ("idle_time", VInt 99); ("io_wait_time", VInt 0);
    ("stolen_time", VInt 0); ("timestamp", VNone); ("timezone", VNone) ].

Definition procs_record_pdt : dict :=
  [ ("runnable_procs", VInt 2); ("uninterruptible_sleeping_procs", VInt 0);
    ("virtual_mem_used", VInt 0); ("free_mem", VInt 2794468);
    ("buffer_mem", VInt 2108); ("cache_mem", VInt 741208);
    ("inactive_mem", VNone); ("active_mem", VNone);
    ("swap_in", VInt 0); ("swap_out", VInt 0);
    ("blocks_in", VInt 1); ("blocks_out", VInt 3);
    ("interrupts", VInt 29); ("context_switches", VInt 57);
    ("user_time", VInt 0); ("system_time", VInt 0);
    ("idle_time", VInt 99); ("io_wait_time", VInt 0);
    ("stolen_time", VInt 0); ("timestamp", VStr "2021-09-16 20:33:13");
    ("timezone", VStr "PDT"); ("epoch", VInt 1631874793);
    ("epoch_utc", VNone) ].

Definition procs_record_utc : dict :=
  [ ("runnable_procs", VInt 2); ("uninterruptible_sleeping_procs", VInt 0);
    ("virtual_mem_used", VInt 0); ("free_mem", VInt 2794468);
    ("buffer_mem", VInt 2108); ("cache_mem", VInt 741208);
    ("inactive_mem", VNone); ("active_mem", VNone);
    ("swap_in", VInt 0); ("swap_out", VInt 0);
    ("blocks_in", VInt 1); ("blocks_out", VInt 3);
    ("interrupts", VInt 29); ("context_switches", VInt 57);
    ("user_time", VInt 0); ("system_time", VInt 0);
    ("idle_time", VInt 99); ("io_wait_time", VInt 0);
    ("stolen_time", VInt 0); ("timestamp", VStr "2021-09-16 20:33:13");
    ("timezone", VStr "UTC"); ("epoch", VInt 1631874793);
    ("epoch_utc", VInt 1631849593) ].

Definition procs_record_ia : dict :=
  [ ("runnable_procs", VInt 2); ("uninterruptible_sleeping_procs", VInt 0);
    ("virtual_mem_used", VInt 0); ("free_mem", VInt 2794468);
    ("buffer_mem", VNone); ("cache_mem", VNone);
    ("inactive_mem", VInt 2108); ("active_mem", VInt 741208);
    ("swap_in", VInt 0); ("swap_out", VInt 0);
    ("blocks_in", VInt 1); ("blocks_out", VInt 3);
    ("interrupts", VInt 29); ("context_switches", VInt 57);
    ("user_time", VInt 0); ("system_time", VInt 0);
    ("idle_time", VInt 99); ("io_wait_time", VInt 0);
    ("stolen_time", VInt 0); ("timestamp", VNone); ("timezone", VNone) ].

Definition disk_record_sda : dict :=
  [ ("disk", VStr "sda"); ("total_reads", VInt 18099);
    ("merged_reads", VInt 89); ("sectors_read", VInt 2538930);
    ("reading_ms", VInt 11375); ("total_writes", VInt 17559);
    ("merged_writes", VInt 11594); ("sectors_written", VInt 1622256);
    ("writing_ms", VInt 52493); ("current_io", VInt 0);
    ("io_seconds", VInt 19); ("timestamp", VNone); ("timezone", VNone) ].

Definition short_disk_line : string := "sda    18099     89 2538930".

(** The start of a disk stream. *)
Definition head_disk : list pyobj :=
  [PyStr disk_marker; PyStr disk_header].

(** A process line with a nineteenth column, read with timestamps off. *)
Definition procs_line_extra : string :=
  " 2  0      0 2794468   2108 741208    0    0     1     3   29   57  0  0 99  0  0 extra".

(** The start of a process stream: the marker and a layout header. *)
Definition head_bc : list pyobj :=
  [PyStr procs_marker; PyStr buff_cache_header].

Definition head_utc : list pyobj :=
  [PyStr procs_marker_t; PyStr buff_cache_header_utc].

Definition head_pdt : list pyobj :=
  [PyStr procs_marker_t; PyStr buff_cache_header_pdt].

End Sample.

(** ** Further words on the input and the records *)

(** A non-blank line that starts with a marker word. *)
Definition is_marker_line (x : pyobj) : bool :=
  match x with
  | PyStr s => negb (String.eqb (strip s) "") && is_marker s
  | _ => false
  end.

(** The keys of the display of lines 200-222, in order. *)
Definition procs_keys : list string :=
  [ "runnable_procs"; "uninterruptible_sleeping_procs"; "virtual_mem_used";
    "free_mem"; "buffer_mem"; "cache_mem"; "inactive_mem"; "active_mem";
    "swap_in"; "swap_out"; "blocks_in"; "blocks_out"; "interrupts";
    "context_switches"; "user_time"; "system_time"; "idle_time";
    "io_wait_time"; "stolen_time"; "timestamp"; "timezone" ].

(** The keys of the display of lines 227-241, in order. *)
Definition disk_keys : list string :=
  [ "disk"; "total_reads"; "merged_reads"; "sectors_read"; "reading_ms";
    "total_writes"; "merged_writes"; "sectors_written"; "writing_ms";
    "current_io"; "io_seconds"; "timestamp"; "timezone" ].

(** The keys lines 123-124 add to a record with a timestamp. *)
Definition epoch_keys (raw : bool) (st : state) : list string :=
  if negb raw && flag (tstamp st) then ["epoch"; "epoch_utc"] else [].

(** The exceptions one pass through the body can end with, by the kind of
    the element and the mode. *)
Definition body_exception (raw : bool) (x : pyobj) (e : exn) : Prop :=
  if is_str x
  then e = IndexError
       \/ e = ParseError "Not vmstat data"
       \/ (raw = false
           /\ exists t, e = ConversionFault t \/ e = TimestampFault t)
  else e = TypeError "Input line must be a 'str' object.".

(** ** More Python text primitives *)

Module PyText.

(** The double and the single quotation mark. *)
Definition dquote : string := String (ascii_of_nat 34) EmptyString.
Definition squote : string := "'".

(** [s.endswith(p)]: [p] is [s] or ends what follows its first
    character. *)
Fixpoint endswith (p s : string) : bool :=
  String.eqb p s ||
  match s with
  | EmptyString => false
  | String _ t => endswith p t
  end.

(** [s[1:]] *)
Definition tail (s : string) : string :=
  match s with
  | EmptyString => EmptyString
  | String _ t => t
  end.

(** [s[:-1]] *)
Fixpoint drop_last (s : string) : string :=
  match s with
  | EmptyString => EmptyString
  | String c EmptyString => EmptyString
  | String c t => String c (drop_last t)
  end.

(** [s[1:-1]] *)
Definition inner (s : string) : string := drop_last (tail s).

(** [c in chars] for one character. *)
Fixpoint char_in (c : ascii) (chars : string) : bool :=
  match chars with
  | EmptyString => false
  | String a t => Ascii.eqb c a || char_in c t
  end.

(** [s.rstrip(chars)] *)
Fixpoint rstrip_chars (chars s : string) : string :=
  match s with
  | EmptyString => EmptyString
  | String c t =>
      match rstrip_chars chars t with
      | EmptyString =>
          if char_in c chars then EmptyString else String c EmptyString
      | t' => String c t'
      end
  end.

(** [l[i:j]] for a list. *)
Definition slice {A : Type} (i j : nat) (l : list A) : list A :=
  firstn (j - i) (skipn i l).

(** The line boundaries of [str.splitlines], for code points below 256. *)
Definition is_linebreak (c : ascii) : bool :=
  let n := nat_of_ascii c in
  (((10 <=? n) && (n <=? 13)) || ((28 <=? n) && (n <=? 30))
   || (n =? 133))%nat.

Definition starts_with_lf (s : string) : bool :=
  match s with
  | String c _ => (nat_of_ascii c =? 10)%nat
  | EmptyString => false
  end.

(** [s.splitlines()]: the lines without their boundaries; a carriage
    return with the line feed after it is one boundary; no empty line is
    added after a final boundary. *)
Fixpoint splitlines (s : string) : list string :=
  match s with
  | EmptyString => []
  | String c t =>
      if is_linebreak c
      then if (nat_of_ascii c =? 13)%nat && starts_with_lf t
           then splitlines t
           else EmptyString :: splitlines t
      else match splitlines t with
           | [] => [String c EmptyString]
           | l :: rest => String c l :: rest
           end
  end.

(** The line feed. *)
Definition lf : string := String (ascii_of_nat 10) EmptyString.

(** No character of [s] is a line boundary. *)
Fixpoint no_linebreak (s : string) : bool :=
  match s with
  | EmptyString => true
  | String c t => negb (is_linebreak c) && no_linebreak t
  end.

End PyText.

(** ** jc.parsers.uptime *)

Module Uptime.

Import PyText.

(** Lines 20-35 of [src/jc/parsers/uptime.py].  Each assignment
    [output[k] = ...] is a [set]; an index out of range raises at once and
    the dictionary built so far is lost. *)
Definition parse (data : string) : result dict :=
  let output := [] in
  let cleandata := splitlines data in
  match cleandata with
  | [] => ret output
  | line0 :: _ =>
      let parsed_line := split line0 in
      v0 <- item parsed_line 0 ;;
      let output := set "time" v0 output in
      let output :=
        set "uptime"
          (VStr (rstrip_chars "," (String.concat " " (slice 2 5 parsed_line))))
          output in
      v5 <- item parsed_line 5 ;;
      let output := set "users" v5 output in
      v9 <- item parsed_line 9 ;;
      let output := set "load_1m" v9 output in
      v10 <- item parsed_line 10 ;;
      let output := set "load_5m" v10 output in
      v11 <- item parsed_line 11 ;;
      let output := set "load_15m" v11 output in
      ret output
  end.

Definition keys : list string :=
  ["time"; "uptime"; "users"; "load_1m"; "load_5m"; "load_15m"].

Definition sample : string :=
  "16:52  up 3 days,  4:49, 5 users, load averages: 1.85 1.90 1.91".

End Uptime.

(** ** jc.parsers.ini *)

Module Ini.

Import PyText.

(** A value of the dictionary [configparser] gives: an option value, which
    is a text or [None], or a section, which maps option names to such
    values. *)
Inductive ini_value : Type :=
| Leaf (v : option string)
| Sect (items : list (string * option string)).

Definition ini_dict : Type := list (string * ini_value).

(** Lines 95-105 of [src/jc/parsers/ini.py]. *)
Definition _remove_quotes (value : option string) : string :=
  match value with
  | Some v =>
      if startswith dquote v && endswith dquote v then inner v
      else if startswith squote v && endswith squote v then inner v
      else v
  | None => EmptyString
  end.

(** Lines 108-129: every value is replaced, in place, by the text
    [_remove_quotes] gives for it, one level down inside a section. *)
Definition _process (proc_data : ini_dict) : ini_dict :=
  map (fun kv : string * ini_value =>
         match kv with
         | (k, Sect v) =>
             (k, Sect (map (fun p : string * option string =>
                              (fst p, Some (_remove_quotes (snd p)))) v))
         | (k, Leaf v) => (k, Leaf (Some (_remove_quotes v)))
         end) proc_data.

(** The option values of a dictionary, top level and sections. *)
Definition leaves (d : ini_dict) : list (option string) :=
  flat_map (fun kv : string * ini_value =>
              match snd kv with
              | Leaf v => [v]
              | Sect items => map snd items
              end) d.

(** The key of each entry, with the option names of a section. *)
Definition shape (d : ini_dict) : list (string * option (list string)) :=
  map (fun kv : string * ini_value =>
         match snd kv with
         | Leaf _ => (fst kv, None)
         | Sect items => (fst kv, Some (map fst items))
         end) d.

(** A value [_remove_quotes] has nothing to do on: a text that is not
    within a pair of like quotation marks. *)
Definition plain (v : option string) : bool :=
  match v with
  | Some s =>
      negb (startswith dquote s && endswith dquote s)
      && negb (startswith squote s && endswith squote s)
  | None => false
  end.

Definition sample : ini_dict :=
  [ ("ServerAliveInterval", Leaf (Some "45"));
    ("bitbucket.org",
      Sect [("User", Some "'hg'"); ("Compression", None)]) ].

End Ini.

(** ** More sample input *)

Module Sample2.

(** A process stream as [vmstat] prints it, the headers coming again. *)
Definition stream : list pyobj :=
  [ PyStr Sample.procs_marker; PyStr Sample.buff_cache_header;
    PyStr Sample.procs_line; PyStr ""; PyStr Sample.procs_marker;
    PyStr Sample.buff_cache_header; PyStr Sample.procs_line ].

Definition bad_number_line : string :=
  " 2  0      0 n/a   2108 741208    0    0     1     3   29   57  0  0 99  0  0".

End Sample2.

(** ** Sample evaluations *)

Example split_ws_ex1 :
  split_ws 2 "  a  bb ccc  d" = ["a"; "bb"; "ccc  d"].
Proof. reflexivity. Qed.

Example split_ex1 : split " a  bb c " = ["a"; "bb"; "c"].
Proof. reflexivity. Qed.

Example strip_ex1 : strip "  a b  " = "a b".
Proof. reflexivity. Qed.

Example str_in_ex1 : str_in "swpd" " r  b   swpd   free" = true.
Proof. reflexivity. Qed.

Example parse_int_ex1 : parse_int "2794468" = Some 2794468%Z.
Proof. reflexivity. Qed.

Example parse_int_ex2 : parse_int "-12" = Some (-12)%Z.
Proof. reflexivity. Qed.

Example parse_int_ex3 : parse_int "sda" = None.
Proof. reflexivity. Qed.

(** Scenario A of the specification. *)
Example scenario_A :
  parse Sample.resolve
    (Iter [PyStr Sample.procs_marker; PyStr Sample.buff_cache_header;
           PyStr Sample.procs_line]) false true
  = ([Success Sample.procs_record_bc], None).
Proof. vm_compute. reflexivity. Qed.

(** Scenario B of the specification, with errors kept inline. *)
Example scenario_B :
  parse Sample.resolve
    (Iter [PyStr Sample.procs_marker; PyStr Sample.buff_cache_header;
           PyStr Sample.short_line; PyStr Sample.procs_line]) false true
  = ([Error IndexError (PyStr Sample.short_line);
      Success Sample.procs_record_bc], None).
Proof. vm_compute. reflexivity. Qed.

(** Scenario C of the specification: text in a numeric slot of a disk
    line. *)
Example scenario_C :
  parse Sample.resolve
    (Iter [PyStr Sample.disk_marker; PyStr Sample.disk_header;
           PyStr "sda 18099 89 n/a 11375 17559 11594 1622256 52493 0 19"])
    false true
  = ([Error (ConversionFault "n/a")
        (PyStr "sda 18099 89 n/a 11375 17559 11594 1622256 52493 0 19")],
     None).
Proof. vm_compute. reflexivity. Qed.

(** Scenario D of the specification: both epochs with the UTC designator,
    a null [epoch_utc] with another zone code. *)
Example scenario_D :
  parse Sample.resolve
    (Iter (Sample.head_utc ++ [PyStr Sample.procs_line_t])) false true
  = ([Success Sample.procs_record_utc], None)
  /\ parse Sample.resolve
       (Iter (Sample.head_pdt ++ [PyStr Sample.procs_line_t])) false true
     = ([Success Sample.procs_record_pdt], None).
Proof. split; vm_compute; reflexivity. Qed.

(** A data line before any marker is not vmstat data. *)
Example data_before_marker :
  parse Sample.resolve (Iter [PyStr Sample.procs_line]) false true
  = ([Error (ParseError "Not vmstat data") (PyStr Sample.procs_line)],
     None).
Proof. vm_compute. reflexivity. Qed.

(** Raw mode keeps the tokens as text; with no layout header read, the
    memory tokens go to the inactive and active fields. *)
Example raw_record_fields :
  match parse Sample.resolve
          (Iter [PyStr Sample.procs_marker; PyStr Sample.procs_line])
          true true with
  | ([Success d], None) =>
      (get "inactive_mem" d, get "active_mem" d, get "buffer_mem" d)
  | _ => (None, None, None)
  end
  = (Some (VStr "2108"), Some (VStr "741208"), Some VNone).
Proof. vm_compute. reflexivity. Qed.

(** ** Facts about the text primitives *)

Section TextFacts.

Lemma lstrip_length (s : string) :
  String.length (lstrip s) <= String.length s.
Proof.
  induction s as [|c t IH]; simpl; [lia|].
  destruct (is_space c); simpl; lia.
Qed.

Lemma lstrip_head (s : string) (c : ascii) (t : string) :
  lstrip s = String c t -> is_space c = false.
Proof.
  induction s as [|a u IH]; simpl; [discriminate|].
  destruct (is_space a) eqn:Ha; [exact IH|].
  intros E; injection E as -> _; exact Ha.
Qed.

Lemma lstrip_fix (c : ascii) (t : string) :
  is_space c = false -> lstrip (String c t) = String c t.
Proof. intros H; simpl; now rewrite H. Qed.

Lemma rstrip_head (c : ascii) (t : string) :
  is_space c = false -> exists t', rstrip (String c t) = String c t'.
Proof.
  intros H; simpl. destruct (rstrip t) as [|a u].
  - rewrite H. now exists EmptyString.
  - now exists (String a u).
Qed.

(** A stripped line that is not empty starts with a visible character. *)
Lemma strip_head (s : string) :
  strip s <> EmptyString ->
  exists c t, strip s = String c t /\ is_space c = false.
Proof.
  unfold strip. intros H.
  destruct (lstrip s) as [|c t] eqn:E; [now simpl in H|].
  pose proof (lstrip_head _ _ _ E) as Hc.
  destruct (rstrip_head c t Hc) as [t' Ht'].
  exists c, t'. now split.
Qed.

Lemma span_word_spec (s : string) :
  no_space (fst (span_word s))
  /\ String.length (snd (span_word s)) <= String.length s.
Proof.
  unfold no_space.
  induction s as [|c t [IH1 IH2]]; simpl.
  - split; [intros ? []|lia].
  - destruct (is_space c) eqn:Hc; simpl.
    + split; [intros ? []|lia].
    + destruct (span_word t) as [w r]; simpl in *. split; [|lia].
      intros a [<-|Ha]; [exact Hc|now apply IH1].
Qed.

Lemma span_word_head (c : ascii) (t : string) :
  is_space c = false ->
  exists w, fst (span_word (String c t)) = String c w
            /\ String.length (snd (span_word (String c t)))
               <= String.length t.
Proof.
  intros Hc. simpl. rewrite Hc.
  pose proof (span_word_spec t) as [_ Hl].
  destruct (span_word t) as [w r]; simpl in *. now exists w.
Qed.

Lemma split_ws_O (s : string) :
  split_ws 0 s =
  match lstrip s with EmptyString => [] | String c t => [String c t] end.
Proof. simpl. now destruct (lstrip s). Qed.

Lemma split_ws_S (k : nat) (s : string) :
  split_ws (S k) s =
  match lstrip s with
  | EmptyString => []
  | String c t =>
      fst (span_word (String c t))
      :: split_ws k (snd (span_word (String c t)))
  end.
Proof.
  cbn [split_ws]. destruct (lstrip s) as [|c u]; [reflexivity|].
  now destruct (span_word (String c u)).
Qed.

(** Every item of a split is a non-empty text. *)
Lemma split_ws_nonempty (n : nat) (s t : string) :
  In t (split_ws n s) -> t <> EmptyString.
Proof.
  revert s; induction n as [|k IH]; intros s.
  - rewrite split_ws_O. destruct (lstrip s) as [|c u]; [intros []|].
    intros [<-|[]]; discriminate.
  - rewrite split_ws_S. destruct (lstrip s) as [|c u] eqn:E; [intros []|].
    pose proof (lstrip_head _ _ _ E) as Hc.
    destruct (span_word_head c u Hc) as [w [Hw _]].
    rewrite Hw. intros [<-|H]; [discriminate|now apply IH in H].
Qed.

(** With a bound that is not reached, no item holds whitespace. *)
Lemma split_ws_no_space (n : nat) (s t : string) :
  String.length s <= n -> In t (split_ws n s) -> no_space t.
Proof.
  revert s; induction n as [|k IH]; intros s Hn.
  - destruct s; [intros []|simpl in Hn; lia].
  - rewrite split_ws_S. destruct (lstrip s) as [|c u] eqn:E; [intros []|].
    pose proof (lstrip_head _ _ _ E) as Hc.
    pose proof (lstrip_length s) as Hl. rewrite E in Hl. simpl in Hl.
    destruct (span_word_head c u Hc) as [w [Hw Hr]].
    pose proof (span_word_spec (String c u)) as [Hns _].
    intros [<-|H]; [exact Hns|].
    apply IH in H; [exact H|lia].
Qed.

(** Any bound that is at least the length of the text gives the same
    items: [split] is the split without a limit. *)
Lemma split_ws_enough (n m : nat) (s : string) :
  String.length s <= n -> String.length s <= m ->
  split_ws n s = split_ws m s.
Proof.
  revert m s; induction n as [|k IH]; intros m s Hn Hm.
  - destruct s; [|simpl in Hn; lia]. now destruct m.
  - destruct m as [|m'].
    + destruct s; [reflexivity|simpl in Hm; lia].
    + rewrite !split_ws_S. destruct (lstrip s) as [|c u] eqn:E;
        [reflexivity|].
      pose proof (lstrip_head _ _ _ E) as Hc.
      pose proof (lstrip_length s) as Hl. rewrite E in Hl. simpl in Hl.
      destruct (span_word_head c u Hc) as [w [_ Hr]].
      f_equal. apply IH; lia.
Qed.

Lemma split_no_space (s t : string) : In t (split s) -> no_space t.
Proof. apply split_ws_no_space. lia. Qed.

Lemma last_item_in (l : list string) (t : string) :
  last_item l = Some t -> In t l.
Proof.
  induction l as [|x l' IH]; [discriminate|].
  destruct l' as [|y l''].
  - intros E; injection E as <-. now left.
  - intros E. right. now apply IH.
Qed.

Lemma last_item_cons (x : string) (l : list string) :
  exists t, last_item (x :: l) = Some t.
Proof.
  revert x; induction l as [|y l' IH]; intros x; [now exists x|].
  destruct (IH y) as [t Ht]. exists t. exact Ht.
Qed.

(** The last item of the split of a non-blank line exists. *)
Lemma last_item_split_strip (s : string) :
  strip s <> EmptyString ->
  exists t, last_item (split (strip s)) = Some t.
Proof.
  intros H. destruct (strip_head s H) as [c [t [E Hc]]].
  rewrite E. unfold split. simpl String.length. rewrite split_ws_S.
  rewrite (lstrip_fix c t Hc). apply last_item_cons.
Qed.

Lemma str_in_blank_cons (c : ascii) (u : string) :
  str_in " " (String c u) = Ascii.eqb c " " || str_in " " u.
Proof.
  cbn [str_in String.prefix].
  destruct (ascii_dec " " c) as [<-|N].
  - now destruct u.
  - destruct (Ascii.eqb_spec c " ") as [->|_]; [now elim N|reflexivity].
Qed.

Lemma str_in_no_space (t : string) :
  no_space t -> str_in " " t = false.
Proof.
  induction t as [|c u IH]; intros H; [reflexivity|].
  rewrite str_in_blank_cons, IH.
  - assert (Hc : is_space c = false) by (apply H; now left).
    destruct (Ascii.eqb_spec c " ") as [->|_]; [discriminate|reflexivity].
  - intros a Ha. apply H. now right.
Qed.

Lemma append_cons (c : ascii) (u v : string) :
  (String c u ++ v)%string = String c (u ++ v).
Proof. reflexivity. Qed.

Lemma str_in_blank_app (a b : string) :
  str_in " " (a ++ " " ++ b) = true.
Proof.
  induction a as [|c u IH].
  - cbn [append]. now rewrite str_in_blank_cons.
  - rewrite append_cons, str_in_blank_cons, IH. apply orb_true_r.
Qed.

(** The zone text of [a b] is [b] when [b] holds no blank. *)
Lemma zone_text_app (a b : string) :
  str_in " " b = false -> zone_text (a ++ " " ++ b) = b.
Proof.
  intros Hb. induction a as [|c u IH].
  - cbn [append zone_text]. now rewrite Hb.
  - rewrite append_cons. cbn [zone_text].
    now rewrite (str_in_blank_app u b), IH.
Qed.

End TextFacts.

(** ** Facts about dictionaries *)

Section DictFacts.

Lemma get_set_same (k : string) (v : value) (d : dict) :
  get k (set k v d) = Some v.
Proof.
  induction d as [|[k' v'] d' IH]; simpl.
  - now rewrite String.eqb_refl.
  - destruct (String.eqb k k') eqn:E; simpl; now rewrite E.
Qed.

Lemma get_set_other (k k' : string) (v : value) (d : dict) :
  k <> k' -> get k (set k' v d) = get k d.
Proof.
  intros N. induction d as [|[k2 v2] d' IH]; simpl.
  - destruct (String.eqb_spec k k'); [contradiction|reflexivity].
  - destruct (String.eqb_spec k' k2) as [->|N2]; simpl.
    + destruct (String.eqb_spec k k2); [contradiction|reflexivity].
    + now rewrite IH.
Qed.

(** Writing to a key the value it already has changes nothing. *)
Lemma set_same (k : string) (v : value) (d : dict) :
  get k d = Some v -> set k v d = d.
Proof.
  induction d as [|[k' v'] d' IH]; simpl; [discriminate|].
  destruct (String.eqb_spec k k') as [->|N].
  - now intros [= ->].
  - intros H. now rewrite IH.
Qed.

(** A display that is evaluated without exception holds, for each key, the
    value of the first expression written for it. *)
Lemma display_get (items : list (string * result value)) (d : dict) :
  display items = inr d ->
  forall k, get k d = match assoc k items with
                      | Some (inr v) => Some v
                      | _ => None
                      end.
Proof.
  revert d; induction items as [|[k' e] rest IH]; intros d; simpl.
  - intros [= <-] k. reflexivity.
  - destruct e as [x|v]; simpl; [discriminate|].
    destruct (display rest) as [x|d'] eqn:E; simpl; [discriminate|].
    intros [= <-] k. simpl.
    destruct (String.eqb k k'); [reflexivity|now apply IH].
Qed.

Lemma display_ok_items (items : list (string * result value)) (d : dict) :
  display items = inr d ->
  forall k e, In (k, e) items -> exists v, e = inr v.
Proof.
  revert d; induction items as [|[k' e'] rest IH]; intros d; simpl.
  - intros _ k e [].
  - destruct e' as [x|v]; simpl; [discriminate|].
    destruct (display rest) as [x|d'] eqn:E; simpl; [discriminate|].
    intros _ k e [[= <- <-]|H]; [now exists v|].
    now apply (IH d' eq_refl k e).
Qed.

(** A display raises one of the exceptions of its expressions. *)
Lemma display_raises (items : list (string * result value)) (x : exn) :
  display items = inl x -> exists k, In (k, inl x) items.
Proof.
  induction items as [|[k' e'] rest IH]; simpl; [discriminate|].
  destruct e' as [y|v]; simpl.
  - intros [= ->]. exists k'. now left.
  - destruct (display rest) as [y|d'] eqn:E; simpl; [|discriminate].
    intros [= ->]. destruct (IH eq_refl) as [k Hk]. exists k. now right.
Qed.

Lemma convert_to_int_fix (v v' : value) :
  convert_to_int v = inr v' -> v' = VNone \/ exists z, v' = VInt z.
Proof.
  destruct v as [|s|z]; simpl.
  - intros [= <-]. now left.
  - destruct (parse_int s) as [z|]; [|discriminate].
    intros [= <-]. right. now exists z.
  - intros [= <-]. right. now exists z.
Qed.

Lemma convert_fields_normalized (d d' : dict) :
  convert_fields d = inr d' -> normalized d'.
Proof.
  revert d'; induction d as [|[k v] r IH]; intros d'; simpl.
  - intros [= <-] k v [].
  - destruct (if in_int_list k then convert_to_int v else ret v)
      as [x|v'] eqn:Ev; simpl; [discriminate|].
    destruct (convert_fields r) as [x|r'] eqn:Er; simpl; [discriminate|].
    intros [= <-] k2 v2 [[= <- <-]|H] Hk.
    + rewrite Hk in Ev. now apply convert_to_int_fix in Ev.
    + now apply (IH r' eq_refl k2 v2).
Qed.

(** Conversion leaves a normalized dictionary as it is. *)
Lemma convert_fields_fix (d : dict) :
  normalized d -> convert_fields d = inr d.
Proof.
  induction d as [|[k v] r IH]; intros H; simpl; [reflexivity|].
  assert (Hr : normalized r).
  { intros k2 v2 Hin. apply H. now right. }
  rewrite (IH Hr).
  destruct (in_int_list k) eqn:Hk; simpl; [|reflexivity].
  destruct (H k v (or_introl eq_refl) Hk) as [->|[z ->]]; reflexivity.
Qed.

(** What conversion does to the value of each key. *)
Lemma convert_fields_get (d d' : dict) :
  convert_fields d = inr d' ->
  forall k,
    match get k d with
    | None => get k d' = None
    | Some v =>
        exists v', get k d' = Some v'
                   /\ (if in_int_list k then convert_to_int v else ret v)
                      = inr v'
    end.
Proof.
  revert d'; induction d as [|[k0 v0] r IH]; intros d'; simpl.
  - intros [= <-] k. reflexivity.
  - destruct (if in_int_list k0 then convert_to_int v0 else ret v0)
      as [x|v'] eqn:Ev; simpl; [discriminate|].
    destruct (convert_fields r) as [x|r'] eqn:Er; simpl; [discriminate|].
    intros [= <-] k. simpl.
    destruct (String.eqb_spec k k0) as [->|N].
    + exists v'. now split.
    + apply (IH r' eq_refl k).
Qed.

Lemma set_normalized (k : string) (v : value) (d : dict) :
  in_int_list k = false -> normalized d -> normalized (set k v d).
Proof.
  intros Hk. induction d as [|[k' v'] r IH]; intros H; simpl.
  - intros k2 v2 [[= <- <-]|[]] H2. congruence.
  - assert (Hr : normalized r).
    { intros k2 v2 Hin. apply H. now right. }
    destruct (String.eqb_spec k k') as [->|N].
    + intros k2 v2 [[= <- <-]|Hin] H2; [congruence|].
      apply (Hr k2 v2 Hin H2).
    + intros k2 v2 [[= <- <-]|Hin] H2.
      * apply (H k' v'); [now left|exact H2].
      * apply (IH Hr k2 v2 Hin H2).
Qed.

End DictFacts.

(** ** Normalization *)

Section Normalization.

Variable resolve : string -> option (Z * Z).

Lemma process_normalized (d d1 : dict) :
  _process resolve d = inr d1 -> normalized d1.
Proof.
  unfold _process, bind, lookup.
  destruct (convert_fields d) as [x|dc] eqn:Ec; [discriminate|].
  pose proof (convert_fields_normalized _ _ Ec) as Hn.
  destruct (get "timestamp" dc) as [t|]; [|discriminate]. simpl.
  destruct (truthy t); [|now intros [= <-]].
  destruct (get "timezone" dc) as [z|]; [|discriminate]. simpl.
  destruct (timestamp resolve _) as [x|ts]; [discriminate|].
  intros [= <-]. now repeat apply set_normalized.
Qed.

(** C9. Normalization is idempotent: for every record [d1] that the
    normalization step [_process] has produced, applying the step again
    succeeds and returns [d1] itself, so every field declared numeric keeps
    the integer (or null) it holds.  [convert_to_int] is modelled from the
    specification. *)
Theorem process_idempotent (d d1 : dict) :
  _process resolve d = inr d1 ->
  _process resolve d1 = inr d1
  /\ (forall k, In k int_list ->
        get k d1 = None \/ get k d1 = Some VNone
        \/ exists z, get k d1 = Some (VInt z)).
Proof.
  intros H. pose proof (process_normalized _ _ H) as Hn.
  split.
  - revert H Hn. unfold _process, bind, lookup.
    destruct (convert_fields d) as [x|dc] eqn:Ec; [discriminate|].
    destruct (get "timestamp" dc) as [t|] eqn:Et; [|discriminate]. simpl.
    destruct (truthy t) eqn:Ht.
    + destruct (get "timezone" dc) as [z|] eqn:Ez; [|discriminate]. simpl.
      destruct (timestamp resolve _) as [x|ts] eqn:Ets; [discriminate|].
      intros [= <-] Hn. rewrite (convert_fields_fix _ Hn).
      rewrite !get_set_other by discriminate. rewrite Et. simpl.
      rewrite Ht, Ez. simpl. rewrite Ets.
      rewrite (set_same "epoch").
      * now rewrite set_same by apply get_set_same.
      * rewrite get_set_other by discriminate. apply get_set_same.
    + intros [= <-] Hn. rewrite (convert_fields_fix _ Hn).
      rewrite Et. simpl. now rewrite Ht.
  - intros k Hk. destruct (get k d1) as [v|] eqn:Eg; [|now left].
    right. assert (Hin : In (k, v) d1).
    { clear - Eg. induction d1 as [|[k' v'] r IH]; [discriminate|].
      simpl in Eg. destruct (String.eqb_spec k k') as [->|N].
      - injection Eg as ->. now left.
      - right. now apply IH. }
    assert (Hl : in_int_list k = true).
    { unfold in_int_list. apply existsb_exists. exists k.
      split; [exact Hk|apply String.eqb_refl]. }
    destruct (Hn k v Hin Hl) as [->|[z ->]]; [now left|right; now exists z].
Qed.

End Normalization.

Lemma process_idempotent_witness :
  _process Sample.resolve Sample.raw_record_t
  = inr Sample.normalized_record_t
  /\ _process Sample.resolve Sample.normalized_record_t
     = inr Sample.normalized_record_t.
Proof.
  split; [reflexivity|].
  apply (process_idempotent Sample.resolve Sample.raw_record_t).
  reflexivity.
Defined.

(** ** One pass through the loop body *)

Section Body.

Variable resolve : string -> option (Z * Z).

Lemma body_blank (raw : bool) (st : state) (s : string) :
  strip s = "" -> body resolve raw st (PyStr s) = (st, Continue).
Proof. intros H. unfold body. now rewrite H. Qed.

Lemma body_not_str (raw : bool) (st : state) (x : pyobj) :
  is_str x = false ->
  body resolve raw st x
  = (st, Raise (TypeError "Input line must be a 'str' object.")).
Proof. destruct x; [discriminate|reflexivity..]. Qed.

Lemma strip_eqb (s : string) :
  strip s <> "" -> String.eqb (strip s) "" = false.
Proof. intros H. now destruct (String.eqb_spec (strip s) ""). Qed.

Lemma body_procs_marker (raw : bool) (st : state) (s : string) :
  strip s <> "" -> family_set st = false -> startswith "procs" s = true ->
  body resolve raw st (PyStr s) = (set_procs st (str_in "-timestamp-" s), Continue).
Proof.
  intros Hs Hf Hp. apply orb_false_elim in Hf as [Hfp Hfd].
  unfold body. now rewrite (strip_eqb s Hs), Hfp, Hfd, Hp.
Qed.

Lemma body_disk_marker (raw : bool) (st : state) (s : string) :
  strip s <> "" -> family_set st = false ->
  startswith "procs" s = false -> startswith "disk" s = true ->
  body resolve raw st (PyStr s) = (set_disk st (str_in "-timestamp-" s), Continue).
Proof.
  intros Hs Hf Hp Hd. apply orb_false_elim in Hf as [Hfp Hfd].
  unfold body. now rewrite (strip_eqb s Hs), Hfp, Hfd, Hp, Hd.
Qed.

(** Once the family is set, a marker line is skipped and nothing changes. *)
Lemma body_marker_again (raw : bool) (st : state) (s : string) :
  strip s <> "" -> family_set st = true -> is_marker s = true ->
  body resolve raw st (PyStr s) = (st, Continue).
Proof.
  intros Hs Hf Hm. unfold family_set in Hf. unfold is_marker in Hm.
  unfold body. rewrite (strip_eqb s Hs), Hf, Hm.
  destruct (flag (procs st)), (flag (disk st)); try discriminate;
    reflexivity.
Qed.

(** What the body does once the marker tests are passed. *)
Lemma body_not_marker (raw : bool) (st : state) (s : string) :
  strip s <> "" -> is_marker s = false ->
  body resolve raw st (PyStr s) =
  if is_buff_cache_header s then header_tz (set_buff_cache st true) s
  else if is_inact_active_header s
       then header_tz (set_buff_cache st false) s
       else if is_disk_header s then header_tz st s
            else (st, emit_record resolve raw st s).
Proof.
  intros Hs Hm. apply orb_false_elim in Hm as [Hp Hd].
  unfold body. rewrite (strip_eqb s Hs), Hp, Hd.
  now rewrite !andb_false_r.
Qed.

Lemma body_data (raw : bool) (st : state) (s : string) :
  strip s <> "" -> is_marker s = false -> is_header s = false ->
  body resolve raw st (PyStr s) = (st, emit_record resolve raw st s).
Proof.
  intros Hs Hm Hh. rewrite (body_not_marker raw st s Hs Hm).
  unfold is_header in Hh.
  apply orb_false_elim in Hh as [Hh Hd].
  apply orb_false_elim in Hh as [Ha Hb].
  now rewrite Ha, Hb, Hd.
Qed.

(** On a non-blank line the zone capture does not fail, and what it
    captures is one token. *)
Lemma capture_tz_ok (st : state) (s : string) :
  strip s <> "" ->
  exists z, capture_tz st s = inr z
            /\ match z with
               | None => True
               | Some t => no_space t /\ t <> ""
               end.
Proof.
  intros Hs. unfold capture_tz.
  destruct (flag (tstamp st)); [|now exists None].
  destruct (last_item_split_strip s Hs) as [t Ht]. rewrite Ht.
  exists (Some t). split; [reflexivity|].
  apply last_item_in in Ht. split.
  - now apply split_no_space in Ht.
  - now apply split_ws_nonempty in Ht.
Qed.

Lemma header_tz_continue (st : state) (s : string) :
  strip s <> "" ->
  exists z, header_tz st s = (set_tz st z, Continue)
            /\ match z with
               | None => True
               | Some t => no_space t /\ t <> ""
               end.
Proof.
  intros Hs. destruct (capture_tz_ok st s Hs) as [z [Hz Hc]].
  exists z. unfold header_tz. now rewrite Hz.
Qed.

Lemma emit_record_not_continue (raw : bool) (st : state) (s : string) :
  emit_record resolve raw st s <> Continue.
Proof.
  unfold emit_record.
  destruct (line_parsing st s) as [e|[|p o]]; try discriminate.
  destruct raw; [discriminate|].
  destruct (_process resolve (p :: o)); discriminate.
Qed.

(** Every element is of one of three kinds: blank and skipped with the
    state untouched; a marker or header line, consumed; or an element the
    body ends on with a record or an exception, the state untouched. *)
Lemma body_cases (raw : bool) (st : state) (x : pyobj) :
  (is_blank x = true /\ body resolve raw st x = (st, Continue))
  \/ (consumed x = true /\ snd (body resolve raw st x) = Continue)
  \/ (emitting x = true /\ fst (body resolve raw st x) = st
      /\ snd (body resolve raw st x) <> Continue).
Proof.
  destruct x as [s|b|z|]; try (right; right; repeat split; discriminate).
  destruct (String.eqb_spec (strip s) "") as [E|N].
  - left. split; [simpl; now rewrite E|now apply body_blank].
  - right. pose proof (strip_eqb s N) as Hb.
    destruct (is_marker s) eqn:Hm.
    + left. split; [simpl; now rewrite Hb, Hm|].
      destruct (family_set st) eqn:Hf.
      * now rewrite body_marker_again.
      * unfold is_marker in Hm.
        destruct (startswith "procs" s) eqn:Hp.
        -- now rewrite body_procs_marker.
        -- simpl in Hm. now rewrite body_disk_marker.
    + rewrite (body_not_marker raw st s N Hm).
      destruct (is_header s) eqn:Hh.
      * left. split; [simpl; now rewrite Hb, Hm, Hh|].
        unfold is_header in Hh.
        destruct (is_buff_cache_header s);
          [|destruct (is_inact_active_header s);
            [|destruct (is_disk_header s); [|discriminate]]];
          match goal with
          | |- snd (header_tz ?t s) = _ =>
              destruct (header_tz_continue t s N) as [z [-> _]]
          end; reflexivity.
      * right. unfold is_header in Hh.
        apply orb_false_elim in Hh as [Hh Hd].
        apply orb_false_elim in Hh as [Ha Hc].
        rewrite Ha, Hc, Hd. simpl. repeat split.
        -- unfold emitting. simpl. rewrite Hb, Hm.
           unfold is_header. now rewrite Ha, Hc, Hd.
        -- apply emit_record_not_continue.
Qed.

(** The invariant holds at the start and is kept by every element. *)
Lemma wf_init : wf init.
Proof. split; [reflexivity|exact I]. Qed.

Lemma header_tz_wf (st : state) (s : string) :
  strip s <> "" -> wf st -> wf (fst (header_tz st s)).
Proof.
  intros Hs [H1 H2]. destruct (header_tz_continue st s Hs) as [z [-> Hz]].
  split; [exact H1|exact Hz].
Qed.

Lemma body_wf (raw : bool) (st : state) (x : pyobj) :
  wf st -> wf (fst (body resolve raw st x)).
Proof.
  intros Hwf.
  destruct (body_cases raw st x) as [[_ ->]|[[Hc Hs]|[_ [-> _]]]];
    try exact Hwf.
  destruct x as [s|b|z|]; try discriminate. simpl in Hc.
  destruct (String.eqb_spec (strip s) "") as [E|N]; [discriminate|].
  simpl in Hc. destruct (is_marker s) eqn:Hm.
  - destruct (family_set st) eqn:Hf.
    + now rewrite body_marker_again.
    + pose proof Hf as Hf'. apply orb_false_elim in Hf' as [Hfp Hfd].
      destruct Hwf as [_ Htz]. unfold is_marker in Hm.
      destruct (startswith "procs" s) eqn:Hp.
      * rewrite body_procs_marker by assumption. split; [|exact Htz].
        simpl. now rewrite Hfd.
      * simpl in Hm. rewrite body_disk_marker by assumption.
        split; [|exact Htz]. simpl. now rewrite Hfp.
  - rewrite (body_not_marker raw st s N Hm).
    destruct (is_buff_cache_header s);
      [|destruct (is_inact_active_header s);
        [|destruct (is_disk_header s); [|exact Hwf]]];
      apply header_tz_wf; try assumption;
      destruct Hwf as [H1 H2]; split; assumption.
Qed.

Lemma state_after_app (raw : bool) (st : state) (l1 l2 : list pyobj) :
  state_after resolve raw st (l1 ++ l2)
  = state_after resolve raw (state_after resolve raw st l1) l2.
Proof. unfold state_after. apply fold_left_app. Qed.

Lemma state_after_wf (raw : bool) (st : state) (data : list pyobj) :
  wf st -> wf (state_after resolve raw st data).
Proof.
  revert st; induction data as [|x r IH]; intros st H; [exact H|].
  simpl. apply IH. now apply body_wf.
Qed.

End Body.

(** ** The loop over the input *)

Section Driver.

Variable resolve : string -> option (Z * Z).

Lemma parse_iter (data : list pyobj) (raw ign : bool) :
  parse resolve (Iter data) raw ign = loop resolve raw ign init data.
Proof. reflexivity. Qed.

(** With [ignore_exceptions] set, the generator ends only when the input is
    exhausted. *)
Lemma loop_ignore_ends (raw : bool) (st : state) (data : list pyobj) :
  snd (loop resolve raw true st data) = None.
Proof.
  revert st; induction data as [|x r IH]; intros st; [reflexivity|].
  simpl. destruct (body resolve raw st x) as [st' [|d|e]]; simpl.
  - apply IH.
  - specialize (IH st'). now destruct (loop resolve raw true st' r).
  - specialize (IH st'). now destruct (loop resolve raw true st' r).
Qed.

Lemma loop_ignore_cons (raw : bool) (st : state) (x : pyobj)
  (r : list pyobj) :
  fst (loop resolve raw true st (x :: r))
  = opt_list (line_output resolve raw st x)
    ++ fst (loop resolve raw true (fst (body resolve raw st x)) r).
Proof.
  simpl. unfold line_output.
  destruct (body resolve raw st x) as [st' [|d|e]]; simpl;
    [reflexivity|now destruct (loop resolve raw true st' r)..].
Qed.

Lemma loop_ignore_app (raw : bool) (st : state) (l1 l2 : list pyobj) :
  fst (loop resolve raw true st (l1 ++ l2))
  = fst (loop resolve raw true st l1)
    ++ fst (loop resolve raw true (state_after resolve raw st l1) l2).
Proof.
  revert st; induction l1 as [|x r IH]; intros st; [reflexivity|].
  rewrite <- app_comm_cons, !loop_ignore_cons, IH. now rewrite app_assoc.
Qed.

(** An emitting element gives one value, a success or an error that
    carries the element; any other element gives none. *)
Lemma line_output_emitting (raw : bool) (st : state) (x : pyobj) :
  emitting x = true ->
  exists o, line_output resolve raw st x = Some o
            /\ match o with
               | Success _ => True
               | Error _ l => l = x
               end.
Proof.
  intros He. unfold line_output.
  destruct (body_cases resolve raw st x) as [[Hb _]|[[Hc _]|[_ [_ Hs]]]].
  - unfold emitting in He. now rewrite Hb in He.
  - unfold emitting in He. rewrite Hc in He.
    now rewrite andb_false_r in He.
  - destruct (snd (body resolve raw st x)) as [|d|e]; [now elim Hs|..].
    + now exists (Success d).
    + now exists (Error e x).
Qed.

Lemma line_output_silent (raw : bool) (st : state) (x : pyobj) :
  emitting x = false -> line_output resolve raw st x = None.
Proof.
  intros He. unfold line_output.
  destruct (body_cases resolve raw st x) as [[_ ->]|[[_ ->]|[H _]]];
    [reflexivity..|congruence].
Qed.

Lemma loop_ignore_length (raw : bool) (st : state) (data : list pyobj) :
  length (fst (loop resolve raw true st data))
  = length (filter emitting data).
Proof.
  revert st; induction data as [|x r IH]; intros st; [reflexivity|].
  rewrite loop_ignore_cons, length_app, IH. simpl.
  destruct (emitting x) eqn:He.
  - destruct (line_output_emitting raw st x He) as [o [-> _]]. reflexivity.
  - now rewrite line_output_silent.
Qed.

(** The elements split into blank, consumed and emitting ones. *)
Lemma count_emitting (data : list pyobj) :
  length (filter emitting data) + length (filter consumed data)
  = length (filter (fun x => negb (is_blank x)) data).
Proof.
  induction data as [|x r IH]; [reflexivity|]. simpl.
  assert (H : consumed x = true -> is_blank x = false).
  { destruct x as [s| | |]; simpl; try discriminate.
    now destruct (String.eqb (strip s) ""). }
  unfold emitting at 1.
  destruct (is_blank x), (consumed x); simpl; try lia.
Qed.

(** A body that ends on a record or an exception leaves the state as it
    was: only skipped and consumed elements change it. *)
Lemma body_state_kept (raw : bool) (st : state) (x : pyobj) :
  snd (body resolve raw st x) <> Continue ->
  fst (body resolve raw st x) = st /\ emitting x = true.
Proof.
  intros H.
  destruct (body_cases resolve raw st x) as [[_ E]|[[_ E]|[He [Hs _]]]].
  - rewrite E in H. now elim H.
  - now elim H.
  - now split.
Qed.

(** With [ignore_exceptions] set, the element that raises gives an inline
    error, and the elements after it are processed from the same state. *)
Lemma loop_fault_inline (raw : bool) (st : state) (pre post : list pyobj)
  (x : pyobj) (e : exn) :
  snd (body resolve raw (state_after resolve raw st pre) x) = Raise e ->
  loop resolve raw true st (pre ++ x :: post)
  = (fst (loop resolve raw true st pre)
     ++ Error e x
        :: fst (loop resolve raw true (state_after resolve raw st pre) post),
     None).
Proof.
  intros H.
  rewrite (surjective_pairing (loop resolve raw true st (pre ++ x :: post))).
  rewrite loop_ignore_ends, loop_ignore_app, loop_ignore_cons.
  unfold line_output. rewrite H. simpl.
  assert (Hk : snd (body resolve raw (state_after resolve raw st pre) x)
               <> Continue) by (rewrite H; discriminate).
  apply body_state_kept in Hk as [-> _]. reflexivity.
Qed.

(** Without [ignore_exceptions], the first exception ends the generator:
    what was yielded is a run of successes from the elements before. *)
Lemma loop_fault_escapes (raw : bool) (st : state) (pre post : list pyobj)
  (x : pyobj) (e : exn) :
  snd (body resolve raw (state_after resolve raw st pre) x) = Raise e ->
  exists outs e0 rest,
    loop resolve raw false st (pre ++ x :: post) = (outs, Some e0)
    /\ forallb is_success outs = true
    /\ fst (loop resolve raw true st pre) = outs ++ rest.
Proof.
  revert st; induction pre as [|y r IH]; intros st H.
  - simpl in H. simpl.
    destruct (body resolve raw st x) as [st' sg]. simpl in H. subst sg.
    simpl. now exists [], e, [].
  - simpl in H. destruct (IH _ H) as [outs [e0 [rest [E [Hs Hp]]]]].
    rewrite <- app_comm_cons. simpl.
    destruct (body resolve raw st y) as [st' [|d|e']]; simpl in *.
    + rewrite E. now exists outs, e0, rest.
    + rewrite E. destruct (loop resolve raw true st' r) as [o1 r1].
      simpl in Hp. subst o1.
      exists (Success d :: outs), e0, rest. now repeat split.
    + destruct (loop resolve raw true st' r) as [o1 r1].
      now exists [], e', (Error e' y :: o1).
Qed.

(** Through a stretch of input with no fault the generator yields the
    same values in both modes, all of them successes, and goes on. *)
Lemma loop_faultless (raw ign : bool) (st : state) (data : list pyobj) :
  faultless resolve raw st data = true ->
  loop resolve raw ign st data = (fst (loop resolve raw true st data), None)
  /\ forallb is_success (fst (loop resolve raw true st data)) = true.
Proof.
  revert st; induction data as [|x r IH]; intros st H; [now split|].
  cbn [faultless loop] in *.
  destruct (body resolve raw st x) as [st' [|d|e]]; [..|discriminate].
  - now apply IH.
  - destruct (IH st' H) as [E1 E2]. rewrite E1.
    destruct (loop resolve raw true st' r) as [o1 r1]. now split.
Qed.

(** Without [ignore_exceptions], the first element that raises ends the
    generator with its exception, after the values of the elements before
    it. *)
Lemma loop_first_fault (raw : bool) (st : state) (pre post : list pyobj)
  (x : pyobj) (e : exn) :
  faultless resolve raw st pre = true ->
  snd (body resolve raw (state_after resolve raw st pre) x) = Raise e ->
  loop resolve raw false st (pre ++ x :: post)
  = (fst (loop resolve raw true st pre), Some e).
Proof.
  revert st; induction pre as [|y r IH]; intros st Hf H.
  - simpl in H. simpl.
    destruct (body resolve raw st x) as [st' sg]. simpl in H. now subst sg.
  - rewrite <- app_comm_cons. cbn [faultless loop state_after fold_left] in *.
    destruct (body resolve raw st y) as [st' [|d|e']]; [..|discriminate];
      cbn [fst] in H.
    + now apply IH.
    + rewrite (IH st' Hf H).
      now destruct (loop resolve raw true st' r).
Qed.

(** An input that is not faultless has a first element that raises. *)
Lemma first_fault_exists (raw : bool) (st : state) (data : list pyobj) :
  faultless resolve raw st data = false ->
  exists pre x post e,
    data = pre ++ x :: post
    /\ faultless resolve raw st pre = true
    /\ snd (body resolve raw (state_after resolve raw st pre) x) = Raise e.
Proof.
  revert st; induction data as [|y r IH]; intros st H; [discriminate|].
  cbn [faultless] in H.
  destruct (body resolve raw st y) as [st' sg] eqn:Eb.
  assert (Hn : forall sg', sg = sg' ->
            (forall e, sg' <> Raise e) ->
            exists pre x post e,
              y :: r = pre ++ x :: post
              /\ faultless resolve raw st pre = true
              /\ snd (body resolve raw (state_after resolve raw st pre) x)
                 = Raise e).
  { intros sg' -> Hsg.
    assert (Hr : faultless resolve raw st' r = false).
    { destruct sg'; try exact H. now elim (Hsg e). }
    destruct (IH st' Hr) as [pre [x [post [e [-> [Hp Hx]]]]]].
    exists (y :: pre), x, post, e. split; [reflexivity|]. split.
    - cbn [faultless]. rewrite Eb. now destruct sg'; try elim (Hsg e0).
    - cbn [state_after fold_left]. rewrite Eb. exact Hx. }
  destruct sg as [|d|e].
  - apply (Hn Continue eq_refl). discriminate.
  - apply (Hn (Yield d) eq_refl). discriminate.
  - exists [], y, r, e. split; [reflexivity|]. split; [reflexivity|].
    simpl. now rewrite Eb.
Qed.

End Driver.

(** ** The field extractor *)

Section Records.

Lemma item_ok (l : list string) (i : nat) (t : string) :
  nth_error l i = Some t -> item l i = inr (VStr t).
Proof. intros H. unfold item. now rewrite H. Qed.

Lemma item_inr (l : list string) (i : nat) (v : value) :
  item l i = inr v -> exists t, nth_error l i = Some t /\ v = VStr t.
Proof.
  unfold item. destruct (nth_error l i) as [t|]; [|discriminate].
  intros [= <-]. now exists t.
Qed.

Lemma item_raises (l : list string) (i : nat) (x : exn) :
  item l i = inl x -> x = IndexError.
Proof.
  unfold item. destruct (nth_error l i); [discriminate|now intros [= <-]].
Qed.

Lemma item_short (l : list string) (i : nat) :
  length l <= i -> item l i = inl IndexError.
Proof. intros H. unfold item. apply nth_error_None in H. now rewrite H. Qed.

Lemma item_long (l : list string) (i : nat) :
  i < length l -> exists t, nth_error l i = Some t.
Proof.
  intros H. apply nth_error_Some in H.
  destruct (nth_error l i) as [t|]; [now exists t|now elim H].
Qed.

Lemma display_total (items : list (string * result value)) :
  (forall k e, In (k, e) items -> exists v, e = inr v) ->
  exists d, display items = inr d.
Proof.
  induction items as [|[k e] rest IH]; intros H; [now exists []|].
  destruct (H k e (or_introl eq_refl)) as [v ->].
  destruct IH as [d Hd].
  { intros k' e' Hin. apply (H k' e'). now right. }
  exists ((k, v) :: d). simpl. now rewrite Hd.
Qed.

Lemma display_in (items : list (string * result value)) (d : dict) :
  display items = inr d ->
  forall k v, In (k, v) d -> In (k, inr v) items.
Proof.
  revert d; induction items as [|[k' e] rest IH]; intros d; simpl.
  - intros [= <-] k v [].
  - destruct e as [x|v']; simpl; [discriminate|].
    destruct (display rest) as [x|d'] eqn:E; simpl; [discriminate|].
    intros [= <-] k v [[= <- <-]|H]; [now left|].
    right. now apply (IH d' eq_refl).
Qed.

Lemma display_nonempty (p : string * result value)
  (items : list (string * result value)) (d : dict) :
  display (p :: items) = inr d -> d <> [].
Proof.
  destruct p as [k e]. simpl. destruct e as [x|v]; simpl; [discriminate|].
  destruct (display items) as [x|d']; simpl; [discriminate|].
  now intros [= <-].
Qed.

(** Membership in a display that is written out. *)
Ltac in_items := simpl; repeat (first [left; reflexivity | right]).

(** The value a written-out display gives for the key [k]. *)
Ltac key_of H k Hk :=
  pose proof (display_get _ _ H k) as Hk;
  cbv [assoc String.eqb Ascii.eqb Bool.eqb] in Hk.

(** Each expression of a written-out display, one case at a time. *)
Ltac each_item H :=
  simpl in H;
  repeat (destruct H as [H|H]; [inversion H; subst; clear H|]);
  [..|now elim H].

(** A process record needs seventeen tokens, and one more for the
    timestamp. *)
Lemma procs_record_length (st : state) (l : list string) (ol : dict) :
  procs_record st l = inr ol ->
  17 + (if flag (tstamp st) then 1 else 0) <= length l.
Proof.
  intros H. unfold procs_record in H.
  pose proof (display_ok_items _ _ H) as Hall.
  destruct (Hall "stolen_time" (item l 16)) as [v Hv]; [in_items|].
  apply item_inr in Hv as [t [Ht _]].
  assert (H16 : 16 < length l) by (apply nth_error_Some; congruence).
  destruct (flag (tstamp st)); [|lia].
  destruct (Hall "timestamp" (item l 17)) as [v' Hv']; [in_items|].
  apply item_inr in Hv' as [t' [Ht' _]].
  assert (H17 : 17 < length l) by (apply nth_error_Some; congruence).
  lia.
Qed.

Lemma procs_record_raises (st : state) (l : list string) (x : exn) :
  procs_record st l = inl x -> x = IndexError.
Proof.
  intros H. unfold procs_record in H.
  apply display_raises in H as [k Hk].
  destruct (flag (buff_cache st)), (flag (tstamp st));
    each_item Hk;
    match goal with
    | E : item _ _ = inl _ |- _ => now apply item_raises in E
    | E : ret _ = inl _ |- _ => discriminate E
    | E : inl _ = item _ _ |- _ => symmetry in E; now apply item_raises in E
    | E : inl _ = ret _ |- _ => discriminate E
    | _ => idtac
    end.
Qed.

Lemma procs_record_short (st : state) (l : list string) :
  length l < 17 + (if flag (tstamp st) then 1 else 0) ->
  procs_record st l = inl IndexError.
Proof.
  intros H. destruct (procs_record st l) as [x|ol] eqn:E.
  - now rewrite (procs_record_raises _ _ _ E).
  - apply procs_record_length in E. lia.
Qed.

Lemma procs_record_total (st : state) (l : list string) :
  17 + (if flag (tstamp st) then 1 else 0) <= length l ->
  exists ol, procs_record st l = inr ol.
Proof.
  intros H. unfold procs_record. apply display_total. intros k e Hin.
  assert (Hi : forall i, i < 17 -> exists v, item l i = inr v).
  { intros i Hi. destruct (item_long l i) as [t Ht]; [lia|].
    exists (VStr t). now apply item_ok. }
  destruct (flag (buff_cache st)), (flag (tstamp st)) eqn:Hts;
    each_item Hin;
    try (apply Hi; lia); try (now eexists);
    destruct (item_long l 17) as [t Ht]; try lia;
    exists (VStr t); now apply item_ok.
Qed.

(** The two pairs of memory fields of a process record. *)
Lemma procs_record_variant (st : state) (l : list string) (ol : dict) :
  procs_record st l = inr ol ->
  exists t4 t5,
    nth_error l 4 = Some t4 /\ nth_error l 5 = Some t5
    /\ get "buffer_mem" ol
       = Some (if flag (buff_cache st) then VStr t4 else VNone)
    /\ get "cache_mem" ol
       = Some (if flag (buff_cache st) then VStr t5 else VNone)
    /\ get "inactive_mem" ol
       = Some (if flag (buff_cache st) then VNone else VStr t4)
    /\ get "active_mem" ol
       = Some (if flag (buff_cache st) then VNone else VStr t5).
Proof.
  intros H. pose proof (procs_record_length _ _ _ H) as Hl.
  destruct (item_long l 4) as [t4 H4]; [lia|].
  destruct (item_long l 5) as [t5 H5]; [lia|].
  exists t4, t5. unfold procs_record in H.
  key_of H "buffer_mem" K1. key_of H "cache_mem" K2.
  key_of H "inactive_mem" K3. key_of H "active_mem" K4.
  rewrite K1, K2, K3, K4, (item_ok _ _ _ H4), (item_ok _ _ _ H5).
  now destruct (flag (buff_cache st)).
Qed.

(** The time fields of a process record. *)
Lemma procs_record_time (st : state) (l : list string) (ol : dict) :
  procs_record st l = inr ol ->
  get "timezone" ol = Some (tz_or_none (tz st))
  /\ get "epoch" ol = None /\ get "epoch_utc" ol = None
  /\ if flag (tstamp st)
     then exists t, nth_error l 17 = Some t
                    /\ get "timestamp" ol = Some (VStr t)
     else get "timestamp" ol = Some VNone.
Proof.
  intros H. pose proof (procs_record_length _ _ _ H) as Hl.
  unfold procs_record in H.
  key_of H "timezone" K1. key_of H "epoch" K2.
  key_of H "epoch_utc" K3. key_of H "timestamp" K4.
  repeat split; try assumption.
  destruct (flag (tstamp st)); [|assumption].
  destruct (item_long l 17) as [t Ht]; [lia|].
  exists t. now rewrite K4, (item_ok _ _ _ Ht).
Qed.

(** The fields of a process record that are declared numeric hold one of
    the first seventeen tokens, or null. *)
Lemma procs_record_numeric (st : state) (l : list string) (ol : dict) :
  procs_record st l = inr ol ->
  forall k v, In (k, v) ol -> in_int_list k = true ->
    v = VNone \/ exists t, v = VStr t /\ In t (firstn 17 l).
Proof.
  intros H k v Hin Hk. unfold procs_record in H.
  pose proof (display_in _ _ H k v Hin) as Hit. clear H Hin.
  assert (Hf : forall i, i < 17 -> item l i = inr v ->
               exists t, v = VStr t /\ In t (firstn 17 l)).
  { intros i Hi Hv. apply item_inr in Hv as [t [Ht ->]]. exists t.
    split; [reflexivity|]. apply (nth_error_In _ i).
    rewrite nth_error_firstn.
    destruct (Nat.ltb_spec i 17); [exact Ht|lia]. }
  destruct (flag (buff_cache st)), (flag (tstamp st));
    each_item Hit; try discriminate Hk;
    match goal with
    | E : inr _ = item _ ?i |- _ =>
        right; apply (Hf i); [lia|now symmetry]
    | E : inr _ = ret VNone |- _ => left; now injection E
    | E : item _ ?i = inr _ |- _ => right; apply (Hf i); [lia|exact E]
    | E : ret VNone = inr _ |- _ => left; now injection E
    | _ => now left
    end.
Qed.

(** A disk record needs eleven tokens, and one more for the timestamp. *)
Lemma disk_record_length (st : state) (l : list string) (ol : dict) :
  disk_record st l = inr ol ->
  11 + (if flag (tstamp st) then 1 else 0) <= length l.
Proof.
  intros H. unfold disk_record in H.
  pose proof (display_ok_items _ _ H) as Hall.
  destruct (Hall "io_seconds" (item l 10)) as [v Hv]; [in_items|].
  apply item_inr in Hv as [t [Ht _]].
  assert (H10 : 10 < length l) by (apply nth_error_Some; congruence).
  destruct (flag (tstamp st)); [|lia].
  destruct (Hall "timestamp" (item l 11)) as [v' Hv']; [in_items|].
  apply item_inr in Hv' as [t' [Ht' _]].
  assert (H11 : 11 < length l) by (apply nth_error_Some; congruence).
  lia.
Qed.

Lemma disk_record_raises (st : state) (l : list string) (x : exn) :
  disk_record st l = inl x -> x = IndexError.
Proof.
  intros H. unfold disk_record in H.
  apply display_raises in H as [k Hk].
  destruct (flag (tstamp st));
    each_item Hk;
    match goal with
    | E : item _ _ = inl _ |- _ => now apply item_raises in E
    | E : ret _ = inl _ |- _ => discriminate E
    | E : inl _ = item _ _ |- _ => symmetry in E; now apply item_raises in E
    | E : inl _ = ret _ |- _ => discriminate E
    | _ => idtac
    end.
Qed.

Lemma disk_record_short (st : state) (l : list string) :
  length l < 11 + (if flag (tstamp st) then 1 else 0) ->
  disk_record st l = inl IndexError.
Proof.
  intros H. destruct (disk_record st l) as [x|ol] eqn:E.
  - now rewrite (disk_record_raises _ _ _ E).
  - apply disk_record_length in E. lia.
Qed.

(** The time fields of a disk record. *)
Lemma disk_record_time (st : state) (l : list string) (ol : dict) :
  disk_record st l = inr ol ->
  get "timezone" ol = Some (tz_or_none (tz st))
  /\ get "epoch" ol = None /\ get "epoch_utc" ol = None
  /\ if flag (tstamp st)
     then exists t, nth_error l 11 = Some t
                    /\ get "timestamp" ol = Some (VStr t)
     else get "timestamp" ol = Some VNone.
Proof.
  intros H. pose proof (disk_record_length _ _ _ H) as Hl.
  unfold disk_record in H.
  key_of H "timezone" K1. key_of H "epoch" K2.
  key_of H "epoch_utc" K3. key_of H "timestamp" K4.
  repeat split; try assumption.
  destruct (flag (tstamp st)); [|assumption].
  destruct (item_long l 11) as [t Ht]; [lia|].
  exists t. now rewrite K4, (item_ok _ _ _ Ht).
Qed.

(** Which display the line parsing evaluates, by family. *)
Lemma line_parsing_procs (st : state) (s : string) :
  flag (procs st) = true -> flag (disk st) = false ->
  line_parsing st s = procs_record st (split_ws 17 (strip s)).
Proof.
  intros Hp Hd. unfold line_parsing. rewrite Hp, Hd.
  now destruct (procs_record st (split_ws 17 (strip s))).
Qed.

Lemma line_parsing_disk (st : state) (s : string) :
  flag (procs st) = false -> flag (disk st) = true ->
  line_parsing st s = disk_record st (split_ws 11 (strip s)).
Proof. intros Hp Hd. unfold line_parsing. now rewrite Hp, Hd. Qed.

Lemma line_parsing_unset (st : state) (s : string) :
  family_set st = false -> line_parsing st s = inr [].
Proof.
  intros H. apply orb_false_elim in H as [Hp Hd].
  unfold line_parsing. now rewrite Hp, Hd.
Qed.

Lemma disk_record_total (st : state) (l : list string) :
  11 + (if flag (tstamp st) then 1 else 0) <= length l ->
  exists ol, disk_record st l = inr ol.
Proof.
  intros H. unfold disk_record. apply display_total. intros k e Hin.
  assert (Hi : forall i, i < 11 -> exists v, item l i = inr v).
  { intros i Hi. destruct (item_long l i) as [t Ht]; [lia|].
    exists (VStr t). now apply item_ok. }
  destruct (flag (tstamp st)) eqn:Hts;
    each_item Hin;
    try (apply Hi; lia); try (now eexists);
    destruct (item_long l 11) as [t Ht]; try lia;
    exists (VStr t); now apply item_ok.
Qed.

(** The fields of a disk record that are declared numeric hold the tokens
    at positions 1 to 10. *)
Lemma disk_record_numeric (st : state) (l : list string) (ol : dict) :
  disk_record st l = inr ol ->
  forall k v, In (k, v) ol -> in_int_list k = true ->
    v = VNone
    \/ exists t i, v = VStr t /\ In i (seq 1 10) /\ nth_error l i = Some t.
Proof.
  intros H k v Hin Hk. unfold disk_record in H.
  pose proof (display_in _ _ H k v Hin) as Hit. clear H Hin.
  assert (Hf : forall i, 1 <= i < 11 -> item l i = inr v ->
               exists t j, v = VStr t /\ In j (seq 1 10)
                           /\ nth_error l j = Some t).
  { intros i Hi Hv. apply item_inr in Hv as [t [Ht ->]]. exists t, i.
    split; [reflexivity|]. split; [apply in_seq; lia|exact Ht]. }
  destruct (flag (tstamp st));
    each_item Hit; try discriminate Hk;
    match goal with
    | E : inr _ = item _ ?i |- _ =>
        right; apply (Hf i); [lia|now symmetry]
    | E : item _ ?i = inr _ |- _ => right; apply (Hf i); [lia|exact E]
    | _ => now left
    end.
Qed.

(** The same for a process record, by position. *)
Lemma procs_record_numeric_slots (st : state) (l : list string)
  (ol : dict) :
  procs_record st l = inr ol ->
  forall k v, In (k, v) ol -> in_int_list k = true ->
    v = VNone
    \/ exists t i, v = VStr t /\ In i (seq 0 17) /\ nth_error l i = Some t.
Proof.
  intros H k v Hin Hk.
  destruct (procs_record_numeric _ _ _ H k v Hin Hk) as [->|[t [-> Ht]]];
    [now left|right].
  apply In_nth_error in Ht as [i Hi]. rewrite nth_error_firstn in Hi.
  destruct (Nat.ltb_spec i 17); [|discriminate].
  exists t, i. split; [reflexivity|]. split; [apply in_seq; lia|exact Hi].
Qed.

End Records.

(** ** Properties of the stream *)

Section StreamProperties.

Variable resolve : string -> option (Z * Z).

(** When the generator ends on exhausted input without
    [ignore_exceptions], it has yielded what it yields with it. *)
Lemma loop_default_complete (raw : bool) (st : state) (data : list pyobj)
  (outs : list output) :
  loop resolve raw false st data = (outs, None) ->
  loop resolve raw true st data = (outs, None).
Proof.
  revert st outs; induction data as [|x r IH]; intros st outs; simpl.
  - trivial.
  - destruct (body resolve raw st x) as [st' [|d|e]]; simpl.
    + apply IH.
    + destruct (loop resolve raw false st' r) as [o1 r1] eqn:E.
      intros [= <- ->]. now rewrite (IH st' o1 E).
    + discriminate.
Qed.

(** C2, as amended.  With errors kept inline ([ignore_exceptions=True]),
    for every input sequence: the generator ends on exhausted input; the
    number of values yielded is the number of non-blank elements minus the
    number of consumed marker and header lines; each element that is
    neither blank nor a consumed marker or header line gives exactly one
    value, a success or an error carrying that element, found in the output
    at the rank the element has among such elements, so the order of the
    input is kept; any other element gives no value.  Under the default
    ([ignore_exceptions=False]) this holds of the input up to its first
    faulting element only: when no element faults the values are the same;
    otherwise the generator ends with the exception of the first faulting
    element, having yielded one success for each emitting element before
    it, in order, and nothing for that element or any after it. *)
Theorem one_output_per_line (raw : bool) (data : list pyobj) :
  exists outs,
    parse resolve (Iter data) raw true = (outs, None)
    /\ length outs + length (filter consumed data)
       = length (filter (fun x => negb (is_blank x)) data)
    /\ (forall pre x post, data = pre ++ x :: post ->
        if emitting x
        then exists o,
               nth_error outs (length (filter emitting pre)) = Some o
               /\ line_output resolve raw
                    (state_after resolve raw init pre) x = Some o
               /\ match o with
                  | Success _ => True
                  | Error _ l => l = x
                  end
        else line_output resolve raw
               (state_after resolve raw init pre) x = None)
    /\ (forall outs', parse resolve (Iter data) raw false = (outs', None) ->
        outs' = outs)
    /\ (faultless resolve raw init data = true ->
        parse resolve (Iter data) raw false = (outs, None)
        /\ forallb is_success outs = true)
    /\ (forall pre x post e,
          data = pre ++ x :: post ->
          faultless resolve raw init pre = true ->
          snd (body resolve raw (state_after resolve raw init pre) x)
          = Raise e ->
          parse resolve (Iter data) raw false
          = (firstn (length (filter emitting pre)) outs, Some e)
          /\ forallb is_success
               (firstn (length (filter emitting pre)) outs) = true)
    /\ (faultless resolve raw init data = false ->
        exists pre x post e,
          data = pre ++ x :: post
          /\ faultless resolve raw init pre = true
          /\ snd (body resolve raw (state_after resolve raw init pre) x)
             = Raise e).
Proof.
  assert (Efirst : forall (a b : list output),
            firstn (length a) (a ++ b) = a).
  { intros a b. induction a as [|y a IH]; simpl; [reflexivity|].
    now rewrite IH. }
  exists (fst (loop resolve raw true init data)).
  rewrite !parse_iter. repeat split.
  - rewrite (surjective_pairing (loop resolve raw true init data)) at 1.
    now rewrite loop_ignore_ends.
  - rewrite loop_ignore_length. apply count_emitting.
  - intros pre x post ->. destruct (emitting x) eqn:He.
    + destruct (line_output_emitting resolve raw
                  (state_after resolve raw init pre) x He) as [o [Ho Hk]].
      exists o. repeat split; try assumption.
      rewrite loop_ignore_app, loop_ignore_cons, Ho.
      rewrite nth_error_app2 by (rewrite loop_ignore_length; lia).
      rewrite loop_ignore_length, Nat.sub_diag. reflexivity.
    + now apply line_output_silent.
  - intros outs' H. apply loop_default_complete in H. now rewrite H.
  - now apply loop_faultless.
  - now apply loop_faultless.
  - subst data. rewrite (loop_first_fault resolve raw init pre post x e)
      by assumption.
    rewrite loop_ignore_app, <- (loop_ignore_length resolve raw init pre).
    now rewrite Efirst.
  - subst data.
    rewrite loop_ignore_app, <- (loop_ignore_length resolve raw init pre).
    rewrite Efirst. now apply (loop_faultless resolve raw true).
  - apply first_fault_exists.
Qed.

(** C1, as amended.  When the caller sets [ignore_exceptions], a fault on
    one element never prevents the processing of the following ones: the
    faulting element gives an inline error carrying it, the elements after
    it are processed from the state the fault found, and the generator ends
    only on exhausted input.  Under the default ([ignore_exceptions=False])
    the exception goes up instead: at the first faulting element the
    generator ends with the exception of that element, having yielded the
    successes of all the elements before it and nothing else; no error
    value is yielded and no later element is processed. *)
Theorem fault_isolation (raw : bool) (pre post : list pyobj) (x : pyobj)
  (e : exn) :
  snd (body resolve raw (state_after resolve raw init pre) x) = Raise e ->
  parse resolve (Iter (pre ++ x :: post)) raw true
  = (fst (parse resolve (Iter pre) raw true)
     ++ Error e x
        :: fst (loop resolve raw true
                  (state_after resolve raw init pre) post),
     None)
  /\ (faultless resolve raw init pre = true ->
      parse resolve (Iter (pre ++ x :: post)) raw false
      = (fst (parse resolve (Iter pre) raw true), Some e)
      /\ parse resolve (Iter pre) raw false
         = (fst (parse resolve (Iter pre) raw true), None)
      /\ forallb is_success (fst (parse resolve (Iter pre) raw true))
         = true)
  /\ exists outs e0 rest,
       parse resolve (Iter (pre ++ x :: post)) raw false = (outs, Some e0)
       /\ forallb is_success outs = true
       /\ fst (parse resolve (Iter pre) raw true) = outs ++ rest.
Proof.
  intros H. rewrite !parse_iter. split; [|split].
  - now apply loop_fault_inline.
  - intros Hf. split; [now apply loop_first_fault|].
    now apply loop_faultless.
  - now apply (loop_fault_escapes resolve raw init pre post x e).
Qed.

(** C8, as amended.  The two checks have different severities.  A [data]
    that is not an iterable, or is a [str] or [bytes], is a hard failure
    whatever the caller's flags: the generator raises [TypeError] before any
    element is looked at.  An element that is not a [str] is a fault of that
    line like any data fault: with [ignore_exceptions] it gives an inline
    error and the following elements are processed. *)
Theorem input_fault_severity (raw : bool) (pre post : list pyobj)
  (x : pyobj) :
  is_str x = false ->
  (forall o ign,
     parse resolve (Obj o) raw ign
     = ([], Some (TypeError
                    "Input data must be a non-string iterable object.")))
  /\ parse resolve (Iter (pre ++ x :: post)) raw true
     = (fst (parse resolve (Iter pre) raw true)
        ++ Error (TypeError "Input line must be a 'str' object.") x
           :: fst (loop resolve raw true
                     (state_after resolve raw init pre) post),
        None).
Proof.
  intros Hx. split.
  - intros o ign. now destruct o.
  - rewrite !parse_iter. apply loop_fault_inline.
    now rewrite body_not_str.
Qed.

(** One element either leaves the family and the timestamp flag as they
    are, or is the marker line that sets the family. *)
Lemma body_family_step (raw : bool) (st : state) (x : pyobj) :
  (procs (fst (body resolve raw st x)) = procs st
   /\ disk (fst (body resolve raw st x)) = disk st
   /\ tstamp (fst (body resolve raw st x)) = tstamp st)
  \/ (family_set st = false
      /\ family_set (fst (body resolve raw st x)) = true).
Proof.
  destruct x as [s|b|z|]; try (left; now repeat split).
  destruct (String.eqb_spec (strip s) "") as [E|N].
  - left. rewrite body_blank by assumption. now repeat split.
  - destruct (is_marker s) eqn:Hm.
    + destruct (family_set st) eqn:Hf.
      * left. rewrite body_marker_again by assumption. now repeat split.
      * right. split; [reflexivity|].
        pose proof Hf as Hf'. apply orb_false_elim in Hf' as [Hp Hd].
        unfold is_marker in Hm.
        destruct (startswith "procs" s) eqn:Hs.
        -- now rewrite body_procs_marker.
        -- simpl in Hm. rewrite body_disk_marker by assumption.
           unfold family_set. simpl. apply orb_true_r.
    + left. rewrite (body_not_marker resolve raw st s N Hm).
      destruct (is_buff_cache_header s);
        [|destruct (is_inact_active_header s);
          [|destruct (is_disk_header s)]];
        try match goal with
          | |- context [header_tz ?t s] =>
              destruct (header_tz_continue t s N) as [z [-> _]]
          end;
        now repeat split.
Qed.

(** One element never unsets the variant. *)
Lemma body_variant_kept (raw : bool) (st : state) (x : pyobj) (b : bool) :
  buff_cache st = Some b ->
  exists b', buff_cache (fst (body resolve raw st x)) = Some b'.
Proof.
  intros Hb. destruct x as [s|c|z|]; try (now exists b).
  destruct (String.eqb_spec (strip s) "") as [E|N].
  - rewrite body_blank by assumption. now exists b.
  - destruct (is_marker s) eqn:Hm.
    + destruct (family_set st) eqn:Hf.
      * rewrite body_marker_again by assumption. now exists b.
      * apply orb_false_elim in Hf as [Hp Hd]. unfold is_marker in Hm.
        destruct (startswith "procs" s) eqn:Hs.
        -- rewrite body_procs_marker; try assumption.
           ++ now exists b.
           ++ unfold family_set. now rewrite Hp, Hd.
        -- simpl in Hm. rewrite body_disk_marker; try assumption.
           ++ now exists b.
           ++ unfold family_set. now rewrite Hp, Hd.
    + rewrite (body_not_marker resolve raw st s N Hm).
      destruct (is_buff_cache_header s);
        [|destruct (is_inact_active_header s);
          [|destruct (is_disk_header s)]];
        try match goal with
          | |- context [header_tz ?t s] =>
              destruct (header_tz_continue t s N) as [z [-> _]]
          end;
        simpl; eauto.
Qed.

Lemma state_after_family (raw : bool) (st : state) (data : list pyobj) :
  family_set st = true ->
  procs (state_after resolve raw st data) = procs st
  /\ disk (state_after resolve raw st data) = disk st
  /\ tstamp (state_after resolve raw st data) = tstamp st.
Proof.
  revert st; induction data as [|x r IH]; intros st Hf; [now repeat split|].
  destruct (body_family_step raw st x) as [[H1 [H2 H3]]|[Hc _]];
    [|congruence].
  assert (Hf' : family_set (fst (body resolve raw st x)) = true).
  { unfold family_set. now rewrite H1, H2. }
  destruct (IH _ Hf') as [I1 [I2 I3]]. simpl.
  rewrite I1, I2, I3. now repeat split.
Qed.

Lemma state_after_variant (raw : bool) (st : state) (data : list pyobj)
  (b : bool) :
  buff_cache st = Some b ->
  exists b', buff_cache (state_after resolve raw st data) = Some b'.
Proof.
  revert st b; induction data as [|x r IH]; intros st b Hb;
    [now exists b|].
  destruct (body_variant_kept raw st x b Hb) as [b' Hb'].
  simpl. now apply (IH _ b').
Qed.

(** C6, as amended.  The family and the timestamp flag are written at most
    once: an element either leaves them as they are or is the marker line
    that sets the family, and once the family is set no later element
    changes them.  A line that matches a marker again is skipped and leaves
    every field of the state, the variant included, as it is; and the
    variant, once set, is never unset.  The variant is not write-once,
    though: every layout header line writes it again. *)
Theorem family_written_once (raw : bool) (st : state)
  (data : list pyobj) :
  family_set st = true ->
  (procs (state_after resolve raw st data) = procs st
   /\ disk (state_after resolve raw st data) = disk st
   /\ tstamp (state_after resolve raw st data) = tstamp st)
  /\ (forall s, strip s <> "" -> is_marker s = true ->
      body resolve raw st (PyStr s) = (st, Continue))
  /\ (forall st0 b, buff_cache st0 = Some b ->
      exists b', buff_cache (state_after resolve raw st0 data) = Some b')
  /\ (forall st0 x,
        (procs (fst (body resolve raw st0 x)) = procs st0
         /\ disk (fst (body resolve raw st0 x)) = disk st0
         /\ tstamp (fst (body resolve raw st0 x)) = tstamp st0)
        \/ (family_set st0 = false
            /\ family_set (fst (body resolve raw st0 x)) = true)).
Proof.
  intros Hf. split; [now apply state_after_family|]. split.
  - intros s Hs Hm. now apply body_marker_again.
  - split.
    + intros st0 b. apply state_after_variant.
    + intros st0 x. apply body_family_step.
Qed.

Lemma emit_record_disk_variant (raw : bool) (st : state) (b : bool)
  (s : string) :
  flag (procs st) = false ->
  emit_record resolve raw (set_buff_cache st b) s
  = emit_record resolve raw st s.
Proof.
  intros Hp. unfold emit_record, line_parsing. simpl. now rewrite Hp.
Qed.

(** C7, as amended.  A header line with the buffer and cache column names
    sets the variant to BUFFER_CACHE, and one with the inactive and active
    column names (and not the former) sets it to INACTIVE_ACTIVE, whatever
    the family is: unset, PROCESS or DISK.  The line must not be blank nor
    start with a marker word, which is tested first.  In a DISK stream the
    variant is set all the same; the records of that family do not read
    it. *)
Theorem header_sets_variant (raw : bool) (st : state) (s : string) :
  strip s <> "" -> is_marker s = false ->
  (is_buff_cache_header s = true ->
   buff_cache (fst (body resolve raw st (PyStr s))) = Some true)
  /\ (is_buff_cache_header s = false -> is_inact_active_header s = true ->
      buff_cache (fst (body resolve raw st (PyStr s))) = Some false)
  /\ (forall b l, flag (procs st) = false ->
      emit_record resolve raw (set_buff_cache st b) l
      = emit_record resolve raw st l).
Proof.
  intros Hs Hm. rewrite (body_not_marker resolve raw st s Hs Hm).
  repeat split.
  - intros ->.
    now destruct (header_tz_continue (set_buff_cache st true) s Hs)
      as [z [-> _]].
  - intros -> ->.
    now destruct (header_tz_continue (set_buff_cache st false) s Hs)
      as [z [-> _]].
  - intros b l Hp. now apply emit_record_disk_variant.
Qed.

End StreamProperties.

(** ** Properties of the records *)

Section RecordProperties.

Variable resolve : string -> option (Z * Z).

Lemma emitting_str (s : string) :
  emitting (PyStr s) = true ->
  strip s <> "" /\ is_marker s = false /\ is_header s = false.
Proof.
  unfold emitting. simpl.
  destruct (String.eqb_spec (strip s) "") as [E|N]; [discriminate|].
  simpl. destruct (is_marker s), (is_header s); try discriminate.
  now repeat split.
Qed.

Lemma body_emitting (raw : bool) (st : state) (s : string) :
  emitting (PyStr s) = true ->
  body resolve raw st (PyStr s) = (st, emit_record resolve raw st s).
Proof.
  intros H. apply emitting_str in H as [Hs [Hm Hh]].
  now apply body_data.
Qed.

Lemma body_yield (raw : bool) (st : state) (x : pyobj) (rec : dict) :
  snd (body resolve raw st x) = Yield rec ->
  exists s, x = PyStr s /\ emitting x = true
            /\ emit_record resolve raw st s = Yield rec.
Proof.
  intros H.
  assert (Hk : snd (body resolve raw st x) <> Continue)
    by (rewrite H; discriminate).
  apply body_state_kept in Hk as [_ He].
  destruct x as [s|b|z|]; try discriminate H.
  exists s. rewrite (body_emitting raw st s He) in H. now repeat split.
Qed.

Lemma emit_record_yield (raw : bool) (st : state) (s : string)
  (rec : dict) :
  emit_record resolve raw st s = Yield rec ->
  exists ol, line_parsing st s = inr ol /\ ol <> []
             /\ if raw then rec = ol else _process resolve ol = inr rec.
Proof.
  unfold emit_record.
  destruct (line_parsing st s) as [e|[|p o]]; try discriminate.
  destruct raw.
  - intros [= <-]. exists (p :: o). now repeat split.
  - destruct (_process resolve (p :: o)) as [e|d] eqn:E; [discriminate|].
    intros [= <-]. exists (p :: o). now repeat split.
Qed.

(** What the normalization step is made of, when it succeeds. *)
Lemma process_inv (d rec : dict) :
  _process resolve d = inr rec ->
  exists dc tsv,
    convert_fields d = inr dc /\ get "timestamp" dc = Some tsv
    /\ if truthy tsv
       then exists tzv n u,
              get "timezone" dc = Some tzv
              /\ resolve (format tsv ++ " " ++ format tzv) = Some (n, u)
              /\ rec = set "epoch_utc"
                         (if String.eqb
                               (zone_text (format tsv ++ " " ++ format tzv))
                               utc_designator
                          then VInt u else VNone)
                         (set "epoch" (VInt n) dc)
       else rec = dc.
Proof.
  unfold _process, bind, lookup.
  destruct (convert_fields d) as [x|dc] eqn:Ec; [discriminate|].
  destruct (get "timestamp" dc) as [tsv|] eqn:Et; [|discriminate].
  unfold ret at 1. intros H. exists dc, tsv.
  split; [reflexivity|]. split; [exact Et|].
  destruct (truthy tsv); [|now injection H].
  destruct (get "timezone" dc) as [tzv|] eqn:Ez; [|discriminate].
  unfold ret at 1, timestamp in H.
  destruct (resolve (format tsv ++ " " ++ format tzv)) as [[n u]|] eqn:Er;
    [|discriminate].
  injection H as <-. exists tzv, n, u. now repeat split.
Qed.

(** A key that is not declared numeric keeps its value through the
    conversion loop. *)
Lemma convert_fields_other (d dc : dict) (k : string) :
  convert_fields d = inr dc -> in_int_list k = false ->
  get k dc = get k d.
Proof.
  intros H Hk. pose proof (convert_fields_get _ _ H k) as G.
  rewrite Hk in G. destruct (get k d) as [v|]; [|exact G].
  destruct G as [v' [-> [= ->]]]. reflexivity.
Qed.

(** The epoch fields the normalization step adds to a record that has
    none: both or neither, by the truth of the timestamp field. *)
Lemma process_epoch (d rec : dict) (tsv tzv : value) :
  _process resolve d = inr rec ->
  get "timestamp" d = Some tsv -> get "timezone" d = Some tzv ->
  get "epoch" d = None -> get "epoch_utc" d = None ->
  get "timestamp" rec = Some tsv
  /\ if truthy tsv
     then exists n u,
            resolve (format tsv ++ " " ++ format tzv) = Some (n, u)
            /\ get "epoch" rec = Some (VInt n)
            /\ get "epoch_utc" rec
               = Some (if String.eqb
                            (zone_text (format tsv ++ " " ++ format tzv))
                            utc_designator
                       then VInt u else VNone)
     else get "epoch" rec = None /\ get "epoch_utc" rec = None.
Proof.
  intros H Hts Htz He Hu.
  destruct (process_inv _ _ H) as [dc [tsv' [Hc [Hts' Hrec]]]].
  rewrite (convert_fields_other _ _ "timestamp" Hc eq_refl), Hts in Hts'.
  injection Hts' as <-.
  pose proof (convert_fields_other _ _ "timezone" Hc eq_refl) as Htz'.
  pose proof (convert_fields_other _ _ "epoch" Hc eq_refl) as He'.
  pose proof (convert_fields_other _ _ "epoch_utc" Hc eq_refl) as Hu'.
  pose proof (convert_fields_other _ _ "timestamp" Hc eq_refl) as Hts'.
  rewrite Htz in Htz'. rewrite He in He'. rewrite Hu in Hu'.
  rewrite Hts in Hts'.
  destruct (truthy tsv).
  - destruct Hrec as [tzv' [n [u [Hz [Hr ->]]]]].
    rewrite Htz' in Hz. injection Hz as <-.
    split; [now rewrite !get_set_other by discriminate|].
    exists n, u. repeat split; try assumption.
    + rewrite get_set_other by discriminate. apply get_set_same.
    + apply get_set_same.
  - subst rec. now repeat split.
Qed.

(** The value of a key other than the epoch keys after normalization. *)
Lemma process_get (d rec : dict) (k : string) :
  _process resolve d = inr rec -> k <> "epoch" -> k <> "epoch_utc" ->
  match get k d with
  | None => get k rec = None
  | Some v =>
      exists v', get k rec = Some v'
                 /\ (if in_int_list k then convert_to_int v else ret v)
                    = inr v'
  end.
Proof.
  intros H N1 N2.
  destruct (process_inv _ _ H) as [dc [tsv [Hc [_ Hrec]]]].
  pose proof (convert_fields_get _ _ Hc k) as G.
  destruct (truthy tsv).
  - destruct Hrec as [tzv [n [u [_ [_ ->]]]]].
    now rewrite !get_set_other by assumption.
  - now subst rec.
Qed.

Lemma holds_token_raw (tok : string) :
  holds_token true (Some (VStr tok)) tok.
Proof. reflexivity. Qed.

Lemma holds_token_converted (tok : string) (v : value) (o : option value) :
  o = Some v -> convert_to_int (VStr tok) = inr v ->
  holds_token false o tok.
Proof.
  intros -> H. simpl in H. unfold holds_token.
  destruct (parse_int tok) as [z|]; [|discriminate].
  injection H as <-. now exists z.
Qed.

Lemma null_converted (v : value) (o : option value) :
  o = Some v -> convert_to_int VNone = inr v -> o = Some VNone.
Proof. intros -> [= <-]. reflexivity. Qed.

(** The memory fields of an emitted process record, by the truth of the
    variant flag. *)
Lemma yield_variant (raw : bool) (st : state) (s : string) (rec : dict) :
  wf st -> flag (procs st) = true ->
  emit_record resolve raw st s = Yield rec ->
  exists t4 t5,
    nth_error (split_ws 17 (strip s)) 4 = Some t4
    /\ nth_error (split_ws 17 (strip s)) 5 = Some t5
    /\ if flag (buff_cache st)
       then holds_token raw (get "buffer_mem" rec) t4
            /\ holds_token raw (get "cache_mem" rec) t5
            /\ get "inactive_mem" rec = Some VNone
            /\ get "active_mem" rec = Some VNone
       else holds_token raw (get "inactive_mem" rec) t4
            /\ holds_token raw (get "active_mem" rec) t5
            /\ get "buffer_mem" rec = Some VNone
            /\ get "cache_mem" rec = Some VNone.
Proof.
  intros [Hx _] Hp Hy. rewrite Hp in Hx. simpl in Hx.
  apply emit_record_yield in Hy as [ol [Hl [_ Hrec]]].
  rewrite (line_parsing_procs st s Hp Hx) in Hl.
  destruct (procs_record_variant _ _ _ Hl)
    as [t4 [t5 [H4 [H5 [G1 [G2 [G3 G4]]]]]]].
  exists t4, t5. split; [exact H4|]. split; [exact H5|].
  destruct raw.
  - subst rec. rewrite G1, G2, G3, G4.
    destruct (flag (buff_cache st)); repeat split.
  - pose proof (process_get _ _ "buffer_mem" Hrec) as P1.
    pose proof (process_get _ _ "cache_mem" Hrec) as P2.
    pose proof (process_get _ _ "inactive_mem" Hrec) as P3.
    pose proof (process_get _ _ "active_mem" Hrec) as P4.
    rewrite G1 in P1. rewrite G2 in P2. rewrite G3 in P3. rewrite G4 in P4.
    destruct P1 as [v1 [E1 C1]]; try discriminate.
    destruct P2 as [v2 [E2 C2]]; try discriminate.
    destruct P3 as [v3 [E3 C3]]; try discriminate.
    destruct P4 as [v4 [E4 C4]]; try discriminate.
    change (in_int_list "buffer_mem") with true in C1.
    change (in_int_list "cache_mem") with true in C2.
    change (in_int_list "inactive_mem") with true in C3.
    change (in_int_list "active_mem") with true in C4.
    destruct (flag (buff_cache st)); repeat split;
      eauto using holds_token_converted, null_converted.
Qed.

End RecordProperties.

(** ** Properties of the fields *)

Section FieldProperties.

Variable resolve : string -> option (Z * Z).

(** C3. For the PROCESS family, once a variant header has been observed
    ([buff_cache] is [True] or [False]), every emitted record has exactly
    one of the two pairs of memory fields non-null.  With BUFFER_CACHE,
    [buffer_mem] and [cache_mem] hold tokens 4 and 5 (as text in raw mode,
    as the integers they write otherwise) and [inactive_mem] and
    [active_mem] are null; with INACTIVE_ACTIVE it is the reverse. *)
Theorem variant_pairs (raw : bool) (pre : list pyobj) (s : string)
  (rec : dict) (b : bool) :
  let st := state_after resolve raw init pre in
  flag (procs st) = true -> buff_cache st = Some b ->
  snd (body resolve raw st (PyStr s)) = Yield rec ->
  exists t4 t5,
    nth_error (split_ws 17 (strip s)) 4 = Some t4
    /\ nth_error (split_ws 17 (strip s)) 5 = Some t5
    /\ if b
       then holds_token raw (get "buffer_mem" rec) t4
            /\ holds_token raw (get "cache_mem" rec) t5
            /\ get "inactive_mem" rec = Some VNone
            /\ get "active_mem" rec = Some VNone
       else holds_token raw (get "inactive_mem" rec) t4
            /\ holds_token raw (get "active_mem" rec) t5
            /\ get "buffer_mem" rec = Some VNone
            /\ get "cache_mem" rec = Some VNone.
Proof.
  intros st Hp Hb Hy.
  assert (Hwf : wf st) by (apply state_after_wf, wf_init).
  apply body_yield in Hy as [s' [[= <-] [_ Hy]]].
  destruct (yield_variant resolve raw st s rec Hwf Hp Hy)
    as [t4 [t5 [H4 [H5 H]]]].
  exists t4, t5. rewrite Hb in H. now destruct b.
Qed.

Lemma convert_fields_total (d : dict) :
  (forall k v, In (k, v) d -> in_int_list k = true ->
               exists v', convert_to_int v = inr v') ->
  exists dc, convert_fields d = inr dc.
Proof.
  induction d as [|[k v] r IH]; intros H; [now exists []|].
  destruct IH as [rc Hrc].
  { intros k' v' Hin. apply H. now right. }
  simpl. rewrite Hrc. destruct (in_int_list k) eqn:Hk.
  - destruct (H k v (or_introl eq_refl) Hk) as [v' ->].
    now exists ((k, v') :: rc).
  - now exists ((k, v) :: rc).
Qed.

Lemma process_total (d dc : dict) (tsv tzv : value) :
  convert_fields d = inr dc ->
  get "timestamp" d = Some tsv -> get "timezone" d = Some tzv ->
  (truthy tsv = true ->
   resolve (format tsv ++ " " ++ format tzv) <> None) ->
  exists rec, _process resolve d = inr rec.
Proof.
  intros Hc Hts Htz Hr. unfold _process, bind, lookup. rewrite Hc.
  rewrite (convert_fields_other _ _ "timestamp" Hc eq_refl), Hts.
  unfold ret at 1. destruct (truthy tsv); [|now exists dc].
  rewrite (convert_fields_other _ _ "timezone" Hc eq_refl), Htz.
  unfold ret at 1, timestamp.
  destruct (resolve (format tsv ++ " " ++ format tzv)) as [[n u]|];
    [|now elim Hr].
  eexists. reflexivity.
Qed.

(** The record of a line normalizes when the tokens of its numeric
    fields write integers and its timestamp, if any, resolves. *)
Lemma record_process_total (ol : dict) (l : list string)
  (slots : list nat) (tsv tzv : value) :
  (forall k v, In (k, v) ol -> in_int_list k = true ->
     v = VNone
     \/ exists t i, v = VStr t /\ In i slots /\ nth_error l i = Some t) ->
  forallb (token_ok l) slots = true ->
  get "timestamp" ol = Some tsv -> get "timezone" ol = Some tzv ->
  (truthy tsv = true ->
   resolve (format tsv ++ " " ++ format tzv) <> None) ->
  exists rec, _process resolve ol = inr rec.
Proof.
  intros Hnum Hok Hts Htz Hres.
  destruct (convert_fields_total ol) as [dc Hdc].
  { intros k v Hin Hk.
    destruct (Hnum k v Hin Hk) as [->|[t [i [-> [Hi Ht]]]]];
      [now exists VNone|].
    rewrite forallb_forall in Hok. specialize (Hok i Hi).
    unfold token_ok in Hok. rewrite Ht in Hok. simpl.
    destruct (parse_int t) as [z|]; [now eexists|discriminate]. }
  now apply (process_total ol dc tsv tzv).
Qed.

(** A valid line gives a record: the body ends on a [yield]. *)
Lemma valid_line_yields (raw : bool) (st : state) (s : string) :
  wf st -> valid_line resolve raw st s = true ->
  exists rec, body resolve raw st (PyStr s) = (st, Yield rec).
Proof.
  intros [Hx _] Hv. unfold valid_line in Hv.
  apply andb_prop in Hv as [Hv Hn]. apply andb_prop in Hv as [Hv Hlen].
  apply andb_prop in Hv as [He Hf]. apply Nat.leb_le in Hlen.
  rewrite (body_emitting resolve raw st s He).
  assert (G : exists rec, emit_record resolve raw st s = Yield rec);
    [|destruct G as [rec ->]; now exists rec].
  unfold emit_record, family_set, tokens, min_tokens, numeric_slots in *.
  destruct (flag (procs st)) eqn:Hp, (flag (disk st)) eqn:Hd;
    try discriminate.
  - rewrite (line_parsing_procs st s Hp Hd).
    destruct (procs_record_total st _ Hlen) as [ol Hol]. rewrite Hol.
    assert (Hne : ol <> []).
    { unfold procs_record in Hol. now apply display_nonempty in Hol. }
    destruct ol as [|p o]; [now elim Hne|].
    destruct raw; [now eexists|]. cbn [orb] in Hn.
    apply andb_prop in Hn as [Hok Hres].
    destruct (procs_record_time _ _ _ Hol) as [Htz [_ [_ Hts]]].
    assert (Hp' : exists rec, _process resolve (p :: o) = inr rec).
    { destruct (flag (tstamp st)).
      - destruct Hts as [t [Ht Hg]]. cbn [negb orb] in Hres.
        change (17 + 1 - 1) with 17 in Hres. rewrite Ht in Hres.
        apply (record_process_total _ (split_ws 17 (strip s)) (seq 0 17) (VStr t)
                 (tz_or_none (tz st))); try assumption.
        + now apply procs_record_numeric_slots with (st := st).
        + intros _. simpl format.
          now destruct (resolve (t ++ " " ++ format (tz_or_none (tz st)))).
      - apply (record_process_total _ (split_ws 17 (strip s)) (seq 0 17) VNone
                 (tz_or_none (tz st))); try assumption.
        + now apply procs_record_numeric_slots with (st := st).
        + discriminate. }
    destruct Hp' as [rec ->]. now eexists.
  - rewrite (line_parsing_disk st s Hp Hd).
    destruct (disk_record_total st _ Hlen) as [ol Hol]. rewrite Hol.
    assert (Hne : ol <> []).
    { unfold disk_record in Hol. now apply display_nonempty in Hol. }
    destruct ol as [|p o]; [now elim Hne|].
    destruct raw; [now eexists|]. cbn [orb] in Hn.
    apply andb_prop in Hn as [Hok Hres].
    destruct (disk_record_time _ _ _ Hol) as [Htz [_ [_ Hts]]].
    assert (Hp' : exists rec, _process resolve (p :: o) = inr rec).
    { destruct (flag (tstamp st)).
      - destruct Hts as [t [Ht Hg]]. cbn [negb orb] in Hres.
        change (11 + 1 - 1) with 11 in Hres. rewrite Ht in Hres.
        apply (record_process_total _ (split_ws 11 (strip s)) (seq 1 10) (VStr t)
                 (tz_or_none (tz st))); try assumption.
        + now apply disk_record_numeric with (st := st).
        + intros _. simpl format.
          now destruct (resolve (t ++ " " ++ format (tz_or_none (tz st)))).
      - apply (record_process_total _ (split_ws 11 (strip s)) (seq 1 10) VNone
                 (tz_or_none (tz st))); try assumption.
        + now apply disk_record_numeric with (st := st).
        + discriminate. }
    destruct Hp' as [rec ->]. now eexists.
Qed.

(** After a stretch of input with no fault the generator is where it
    would be after it in any mode. *)
Lemma loop_faultless_app (raw ign : bool) (st : state)
  (pre rest : list pyobj) :
  faultless resolve raw st pre = true ->
  loop resolve raw ign st (pre ++ rest)
  = (fst (loop resolve raw true st pre)
     ++ fst (loop resolve raw ign (state_after resolve raw st pre) rest),
     snd (loop resolve raw ign (state_after resolve raw st pre) rest)).
Proof.
  revert st; induction pre as [|y r IH]; intros st H.
  - simpl. now destruct (loop resolve raw ign st rest).
  - rewrite <- app_comm_cons.
    cbn [faultless loop state_after fold_left] in *.
    destruct (body resolve raw st y) as [st' [|d|e]]; [..|discriminate];
      cbn [fst].
    + now apply IH.
    + rewrite (IH st' H).
      now destruct (loop resolve raw true st' r).
Qed.

(** C10. For the PROCESS family, a valid data line that arrives while the
    variant is still unset gives a success, not an error: the parser
    yields, at the place of the line in the output, a record with
    [inactive_mem] and [active_mem] from tokens 4 and 5 and [buffer_mem]
    and [cache_mem] null.  This holds with errors kept inline, whatever
    comes before the line, and under the default whenever the generator
    reaches the line (no element before it raised).  Valid: neither blank
    nor a marker or header line, with the seventeen tokens a process record
    needs and one more when timestamps are on; outside raw mode the
    seventeen tokens write integers and, when timestamps are on, the
    timestamp resolves. *)
Theorem unset_variant_default (raw : bool) (pre post : list pyobj)
  (s : string) :
  let st := state_after resolve raw init pre in
  let toks := split_ws 17 (strip s) in
  flag (procs st) = true -> buff_cache st = None ->
  valid_line resolve raw st s = true ->
  exists rec t4 t5,
    nth_error toks 4 = Some t4 /\ nth_error toks 5 = Some t5
    /\ holds_token raw (get "inactive_mem" rec) t4
    /\ holds_token raw (get "active_mem" rec) t5
    /\ get "buffer_mem" rec = Some VNone
    /\ get "cache_mem" rec = Some VNone
    /\ snd (body resolve raw st (PyStr s)) = Yield rec
    /\ parse resolve (Iter (pre ++ PyStr s :: post)) raw true
       = (fst (parse resolve (Iter pre) raw true)
          ++ Success rec :: fst (loop resolve raw true st post),
          None)
    /\ (faultless resolve raw init pre = true ->
        parse resolve (Iter (pre ++ PyStr s :: post)) raw false
        = (fst (parse resolve (Iter pre) raw true)
           ++ Success rec :: fst (loop resolve raw false st post),
           snd (loop resolve raw false st post))).
Proof.
  intros st toks Hp Hb Hv.
  assert (Hwf : wf st) by (apply state_after_wf, wf_init).
  destruct (valid_line_yields raw st s Hwf Hv) as [rec Hy].
  assert (Hy' : emit_record resolve raw st s = Yield rec).
  { apply andb_prop in Hv as [Hv _]. apply andb_prop in Hv as [Hv _].
    apply andb_prop in Hv as [He _].
    rewrite (body_emitting resolve raw st s He) in Hy. now injection Hy. }
  destruct (yield_variant resolve raw st s rec Hwf Hp Hy')
    as [t4 [t5 [H4 [H5 H]]]].
  exists rec, t4, t5. rewrite Hb in H. simpl in H.
  destruct H as [G1 [G2 [G3 G4]]].
  repeat (split; [assumption|]). split; [now rewrite Hy|].
  rewrite !parse_iter. split.
  - rewrite (surjective_pairing
               (loop resolve raw true init (pre ++ PyStr s :: post))).
    rewrite loop_ignore_ends, loop_ignore_app, loop_ignore_cons.
    unfold line_output. fold st. now rewrite Hy.
  - intros Hf. rewrite (loop_faultless_app raw false init pre _ Hf).
    fold st. cbn [loop]. rewrite Hy.
    now destruct (loop resolve raw false st post).
Qed.

(** C4, as amended.  A data line of the current family with fewer tokens
    than the family needs (seventeen for PROCESS, eleven for DISK, and one
    more when timestamps are on) raises [IndexError] before any record is
    built, so no record, partial or not, is emitted for it, and the state
    is what it was.  With errors kept inline ([ignore_exceptions=True])
    the line gives an error carrying it, and the next line, when it is a
    valid line of the family, gives its success right after that error.
    Under the default the [IndexError] goes up instead: when it is the
    first fault, the generator ends with it after the successes of the
    elements before the short line, and the next line is not
    processed. *)
Theorem short_line_is_error (raw : bool) (pre post : list pyobj)
  (s : string) :
  let st := state_after resolve raw init pre in
  family_set st = true -> emitting (PyStr s) = true ->
  length (tokens st s) < min_tokens st ->
  body resolve raw st (PyStr s) = (st, Raise IndexError)
  /\ parse resolve (Iter (pre ++ PyStr s :: post)) raw true
     = (fst (parse resolve (Iter pre) raw true)
        ++ Error IndexError (PyStr s)
           :: fst (loop resolve raw true st post),
        None)
  /\ (forall next post',
        post = PyStr next :: post' ->
        valid_line resolve raw st next = true ->
        exists rec,
          parse resolve (Iter (pre ++ PyStr s :: post)) raw true
          = (fst (parse resolve (Iter pre) raw true)
             ++ Error IndexError (PyStr s)
                :: Success rec :: fst (loop resolve raw true st post'),
             None))
  /\ (faultless resolve raw init pre = true ->
      parse resolve (Iter (pre ++ PyStr s :: post)) raw false
      = (fst (parse resolve (Iter pre) raw true), Some IndexError)
      /\ forallb is_success (fst (parse resolve (Iter pre) raw true))
         = true).
Proof.
  intros st Hf He Hlen.
  assert (Hwf : wf st) by (apply state_after_wf, wf_init).
  assert (Hb : body resolve raw st (PyStr s) = (st, Raise IndexError)).
  { rewrite (body_emitting resolve raw st s He). f_equal.
    unfold emit_record. unfold tokens, min_tokens in Hlen.
    destruct Hwf as [Hx _]. unfold family_set in Hf.
    destruct (flag (procs st)) eqn:Hp, (flag (disk st)) eqn:Hd;
      try discriminate.
    - rewrite (line_parsing_procs st s Hp Hd).
      now rewrite (procs_record_short st _ Hlen).
    - rewrite (line_parsing_disk st s Hp Hd).
      now rewrite (disk_record_short st _ Hlen). }
  assert (Hin : loop resolve raw true init (pre ++ PyStr s :: post)
                = (fst (loop resolve raw true init pre)
                   ++ Error IndexError (PyStr s)
                      :: fst (loop resolve raw true st post), None)).
  { apply loop_fault_inline. fold st. now rewrite Hb. }
  split; [exact Hb|]. rewrite !parse_iter. split; [exact Hin|]. split.
  - intros next post' -> Hv.
    destruct (valid_line_yields raw st next Hwf Hv) as [rec Hy].
    exists rec. rewrite Hin. rewrite loop_ignore_cons.
    unfold line_output. now rewrite Hy.
  - intros Hfl. split.
    + apply loop_first_fault; [exact Hfl|]. fold st. now rewrite Hb.
    + now apply (loop_faultless resolve raw true).
Qed.

End FieldProperties.

(** ** The epoch fields *)

Section EpochProperties.

Variable resolve : string -> option (Z * Z).

(** The time fields of the record the field extractor builds. *)
Lemma line_parsing_time (st : state) (s : string) (ol : dict) :
  wf st -> line_parsing st s = inr ol -> ol <> [] ->
  get "timezone" ol = Some (tz_or_none (tz st))
  /\ get "epoch" ol = None /\ get "epoch_utc" ol = None
  /\ if flag (tstamp st)
     then exists t, nth_error (tokens st s) (min_tokens st - 1) = Some t
                    /\ get "timestamp" ol = Some (VStr t)
     else get "timestamp" ol = Some VNone.
Proof.
  intros [Hx _] Hl Hne. unfold tokens, min_tokens.
  destruct (flag (procs st)) eqn:Hp, (flag (disk st)) eqn:Hd;
    try discriminate.
  - rewrite (line_parsing_procs st s Hp Hd) in Hl.
    destruct (procs_record_time _ _ _ Hl) as [H1 [H2 [H3 H4]]].
    repeat split; try assumption. now destruct (flag (tstamp st)).
  - rewrite (line_parsing_disk st s Hp Hd) in Hl.
    destruct (disk_record_time _ _ _ Hl) as [H1 [H2 [H3 H4]]].
    repeat split; try assumption. now destruct (flag (tstamp st)).
  - rewrite line_parsing_unset in Hl
      by (unfold family_set; now rewrite Hp, Hd).
    injection Hl as <-. now elim Hne.
Qed.

(** The zone text of the instant string is the designator of UTC exactly
    when the captured zone code is. *)
Lemma zone_is_utc (st : state) (t : string) :
  wf st ->
  String.eqb (zone_text (t ++ " " ++ format (tz_or_none (tz st))))
    utc_designator = true
  <-> tz st = Some utc_designator.
Proof.
  intros [_ Hz]. unfold tz_or_none. destruct (tz st) as [z|].
  - destruct Hz as [Hns Hne].
    destruct (String.eqb_spec z "") as [->|_]; [now elim Hne|].
    simpl format. rewrite zone_text_app by now apply str_in_no_space.
    rewrite String.eqb_eq. split; [now intros ->|now intros [= ->]].
  - simpl format. rewrite zone_text_app by reflexivity.
    split; discriminate.
Qed.

(** C5, as amended.  In every normalized record, the keys [epoch] and
    [epoch_utc] are present together, if and only if timestamp detection is
    on; the line then carried a timestamp token, which is the [timestamp]
    field, and [epoch] is an integer.  The value of [epoch_utc] is an
    integer if and only if, besides, the captured zone code is exactly the
    UTC designator; with any other zone code or none the key is still
    there and its value is null. *)
Theorem epoch_fields (pre : list pyobj) (x : pyobj) (rec : dict) :
  let st := state_after resolve false init pre in
  snd (body resolve false st x) = Yield rec ->
  (has_key "epoch" rec = true <-> flag (tstamp st) = true)
  /\ has_key "epoch_utc" rec = has_key "epoch" rec
  /\ (flag (tstamp st) = true ->
      exists s t n,
        x = PyStr s
        /\ nth_error (tokens st s) (min_tokens st - 1) = Some t
        /\ get "timestamp" rec = Some (VStr t)
        /\ get "epoch" rec = Some (VInt n))
  /\ ((exists u, get "epoch_utc" rec = Some (VInt u))
      <-> flag (tstamp st) = true /\ tz st = Some utc_designator)
  /\ (flag (tstamp st) = true -> tz st <> Some utc_designator ->
      get "epoch_utc" rec = Some VNone).
Proof.
  intros st Hy.
  assert (Hwf : wf st) by (apply state_after_wf, wf_init).
  apply body_yield in Hy as [s [-> [_ Hy]]].
  apply emit_record_yield in Hy as [ol [Hl [Hne Hrec]]].
  destruct (line_parsing_time st s ol Hwf Hl Hne) as [Htz [He [Hu Hts]]].
  pose proof (zone_is_utc st) as Hzone.
  destruct (flag (tstamp st)) eqn:Hf.
  - destruct Hts as [t [Ht Hg]].
    destruct (process_epoch resolve ol rec _ _ Hrec Hg Htz He Hu)
      as [Gt G].
    assert (Htr : truthy (VStr t) = true).
    { simpl. unfold tokens in Ht. apply nth_error_In in Ht.
      destruct (flag (disk st)); apply split_ws_nonempty in Ht;
        now destruct (String.eqb_spec t ""). }
    rewrite Htr in G. destruct G as [n [u [_ [Ge Gu]]]].
    change (format (VStr t)) with t in Gu. specialize (Hzone t Hwf).
    unfold has_key. rewrite Ge, Gu.
    destruct (String.eqb (zone_text _) utc_designator).
    + assert (Hz : tz st = Some utc_designator) by now apply Hzone.
      repeat split; try reflexivity; try assumption.
      * intros _. exists s, t, n. now repeat split.
      * now exists u.
      * intros _ Hn. now elim Hn.
    + assert (Hz : tz st <> Some utc_designator).
      { intros Hz. apply Hzone in Hz. discriminate. }
      repeat split; try reflexivity.
      * intros _. exists s, t, n. now repeat split.
      * match goal with
        | H : exists _, _ |- _ => destruct H as [u' Hu']; discriminate Hu'
        end.
      * intros [_ Hc]. now elim Hz.
  - destruct (process_epoch resolve ol rec _ _ Hrec Hts Htz He Hu)
      as [Gt [Ge Gu]].
    unfold has_key. rewrite Ge, Gu. repeat split; try discriminate.
    all: try match goal with
             | H : exists _, _ |- _ =>
                 destruct H as [u' Hu']; discriminate Hu'
             end.
    now intros [Hc _].
Qed.

End EpochProperties.

(** ** The properties at sample inputs *)

(** The default call on a stream with a short line: the exception of the
    short line ends the generator, no error value is yielded for it and the
    valid line after it is not processed. *)
Lemma default_stops_at_first_fault :
  parse_default Sample.resolve
    (Iter [PyStr Sample.procs_marker; PyStr Sample.buff_cache_header;
           PyStr Sample.short_line; PyStr Sample.procs_line])
  = ([], Some IndexError).
Proof. vm_compute. reflexivity. Qed.

Lemma fault_isolation_witness :
  snd (body Sample.resolve false
         (state_after Sample.resolve false init
            (Sample.head_bc ++ [PyStr Sample.procs_line]))
         (PyStr Sample.short_line)) = Raise IndexError
  /\ faultless Sample.resolve false init
       (Sample.head_bc ++ [PyStr Sample.procs_line]) = true
  /\ parse Sample.resolve
       (Iter ((Sample.head_bc ++ [PyStr Sample.procs_line])
              ++ PyStr Sample.short_line :: [PyStr Sample.procs_line]))
       false true
     = ([Success Sample.procs_record_bc;
         Error IndexError (PyStr Sample.short_line);
         Success Sample.procs_record_bc], None)
  /\ parse Sample.resolve
       (Iter ((Sample.head_bc ++ [PyStr Sample.procs_line])
              ++ PyStr Sample.short_line :: [PyStr Sample.procs_line]))
       false false
     = ([Success Sample.procs_record_bc], Some IndexError).
Proof.
  split; [vm_compute; reflexivity|].
  split; [vm_compute; reflexivity|].
  destruct (fault_isolation Sample.resolve false
              (Sample.head_bc ++ [PyStr Sample.procs_line])
              [PyStr Sample.procs_line] (PyStr Sample.short_line)
              IndexError) as [H1 [H2 _]]; [vm_compute; reflexivity|].
  split.
  - rewrite H1. vm_compute. reflexivity.
  - destruct H2 as [H2 _]; [vm_compute; reflexivity|].
    rewrite H2. vm_compute. reflexivity.
Defined.

(** The default call on a stream with three data lines, the second one
    short: one value is yielded, not three. *)
Lemma default_count_falls_short :
  parse_default Sample.resolve
    (Iter (Sample.head_bc
           ++ [PyStr Sample.procs_line; PyStr Sample.short_line;
               PyStr Sample.procs_line]))
  = ([Success Sample.procs_record_bc], Some IndexError)
  /\ length (filter (fun x => negb (is_blank x))
               (Sample.head_bc
                ++ [PyStr Sample.procs_line; PyStr Sample.short_line;
                    PyStr Sample.procs_line]))
     - length (filter consumed
                 (Sample.head_bc
                  ++ [PyStr Sample.procs_line; PyStr Sample.short_line;
                      PyStr Sample.procs_line]))
     = 3.
Proof. split; vm_compute; reflexivity. Qed.

Lemma variant_pairs_witness :
  flag (procs (state_after Sample.resolve false init Sample.head_bc)) = true
  /\ buff_cache (state_after Sample.resolve false init Sample.head_bc)
     = Some true
  /\ snd (body Sample.resolve false
            (state_after Sample.resolve false init Sample.head_bc)
            (PyStr Sample.procs_line)) = Yield Sample.procs_record_bc
  /\ exists t4 t5,
       nth_error (split_ws 17 (strip Sample.procs_line)) 4 = Some t4
       /\ nth_error (split_ws 17 (strip Sample.procs_line)) 5 = Some t5
       /\ holds_token false (get "buffer_mem" Sample.procs_record_bc) t4
       /\ holds_token false (get "cache_mem" Sample.procs_record_bc) t5
       /\ get "inactive_mem" Sample.procs_record_bc = Some VNone
       /\ get "active_mem" Sample.procs_record_bc = Some VNone.
Proof.
  repeat (split; [vm_compute; reflexivity|]).
  apply (variant_pairs Sample.resolve false Sample.head_bc
           Sample.procs_line Sample.procs_record_bc true);
    vm_compute; reflexivity.
Defined.

Lemma short_line_is_error_witness :
  family_set (state_after Sample.resolve false init Sample.head_disk) = true
  /\ emitting (PyStr Sample.short_disk_line) = true
  /\ length (tokens (state_after Sample.resolve false init Sample.head_disk)
               Sample.short_disk_line)
     < min_tokens (state_after Sample.resolve false init Sample.head_disk)
  /\ valid_line Sample.resolve false
       (state_after Sample.resolve false init Sample.head_disk)
       Sample.disk_line = true
  /\ parse Sample.resolve
       (Iter (Sample.head_disk
              ++ PyStr Sample.short_disk_line
                 :: [PyStr Sample.disk_line]))
       false true
     = ([Error IndexError (PyStr Sample.short_disk_line);
         Success Sample.disk_record_sda], None).
Proof.
  split; [vm_compute; reflexivity|].
  split; [vm_compute; reflexivity|].
  split; [vm_compute; lia|].
  split; [vm_compute; reflexivity|].
  destruct (short_line_is_error Sample.resolve false Sample.head_disk
              [PyStr Sample.disk_line] Sample.short_disk_line)
    as [_ [_ [H _]]]; [vm_compute; reflexivity..|vm_compute; lia|].
  destruct (H Sample.disk_line [] eq_refl) as [rec Hrec];
    [vm_compute; reflexivity|].
  rewrite Hrec. vm_compute in Hrec. injection Hrec as <-.
  vm_compute. reflexivity.
Defined.

(** The default call on a disk stream with a short line: the [IndexError]
    of the short line ends the generator; neither an error for it nor the
    success of the valid line after it is yielded. *)
Lemma default_short_line_ends_stream :
  valid_line Sample.resolve false
    (state_after Sample.resolve false init
       (Sample.head_disk ++ [PyStr Sample.short_disk_line]))
    Sample.disk_line = true
  /\ parse_default Sample.resolve
       (Iter (Sample.head_disk
              ++ [PyStr Sample.short_disk_line; PyStr Sample.disk_line]))
     = ([], Some IndexError).
Proof. split; vm_compute; reflexivity. Qed.

(** A stream with timestamps whose header ends in a zone code other than
    UTC: the record has the key [epoch_utc], with a null value. *)
Lemma epoch_utc_present_without_utc :
  parse Sample.resolve
    (Iter (Sample.head_pdt ++ [PyStr Sample.procs_line_t])) false true
  = ([Success Sample.procs_record_pdt], None)
  /\ tz (state_after Sample.resolve false init Sample.head_pdt) = Some "PDT"
  /\ has_key "epoch_utc" Sample.procs_record_pdt = true
  /\ get "epoch_utc" Sample.procs_record_pdt = Some VNone.
Proof. repeat split; vm_compute; reflexivity. Qed.

Lemma epoch_fields_witness :
  snd (body Sample.resolve false
         (state_after Sample.resolve false init Sample.head_utc)
         (PyStr Sample.procs_line_t)) = Yield Sample.procs_record_utc
  /\ (has_key "epoch" Sample.procs_record_utc = true
      <-> flag (tstamp (state_after Sample.resolve false init
                          Sample.head_utc)) = true)
  /\ has_key "epoch_utc" Sample.procs_record_utc
     = has_key "epoch" Sample.procs_record_utc.
Proof.
  split; [vm_compute; reflexivity|].
  destruct (epoch_fields Sample.resolve Sample.head_utc
              (PyStr Sample.procs_line_t) Sample.procs_record_utc)
    as [H1 [H2 _]]; [vm_compute; reflexivity|].
  split; assumption.
Defined.

(** A layout header of the other shape, later in the stream, overwrites
    the variant. *)
Lemma variant_overwritten :
  buff_cache (state_after Sample.resolve false init Sample.head_bc)
  = Some true
  /\ buff_cache
       (state_after Sample.resolve false init
          (Sample.head_bc ++ [PyStr Sample.inact_active_header]))
     = Some false.
Proof. split; vm_compute; reflexivity. Qed.

Lemma family_written_once_witness :
  family_set (state_after Sample.resolve false init Sample.head_bc) = true
  /\ tstamp
       (state_after Sample.resolve false
          (state_after Sample.resolve false init Sample.head_bc)
          [PyStr Sample.procs_marker_t; PyStr Sample.inact_active_header])
     = tstamp (state_after Sample.resolve false init Sample.head_bc).
Proof.
  split; [vm_compute; reflexivity|].
  destruct (family_written_once Sample.resolve false
              (state_after Sample.resolve false init Sample.head_bc)
              [PyStr Sample.procs_marker_t;
               PyStr Sample.inact_active_header])
    as [[_ [_ H]] _]; [vm_compute; reflexivity|].
  exact H.
Defined.

(** In a disk stream a process layout header sets the variant. *)
Lemma disk_stream_sets_variant :
  disk (state_after Sample.resolve false init [PyStr Sample.disk_marker])
  = Some true
  /\ buff_cache
       (state_after Sample.resolve false init [PyStr Sample.disk_marker])
     = None
  /\ buff_cache
       (state_after Sample.resolve false init
          [PyStr Sample.disk_marker; PyStr Sample.buff_cache_header])
     = Some true.
Proof. repeat split; vm_compute; reflexivity. Qed.

Lemma header_sets_variant_witness :
  strip Sample.buff_cache_header <> ""
  /\ is_marker Sample.buff_cache_header = false
  /\ buff_cache
       (fst (body Sample.resolve false
               (state_after Sample.resolve false init
                  [PyStr Sample.disk_marker])
               (PyStr Sample.buff_cache_header)))
     = Some true.
Proof.
  split; [vm_compute; discriminate|].
  split; [vm_compute; reflexivity|].
  destruct (header_sets_variant Sample.resolve false
              (state_after Sample.resolve false init
                 [PyStr Sample.disk_marker])
              Sample.buff_cache_header) as [H _];
    [vm_compute; discriminate|vm_compute; reflexivity|].
  apply H. vm_compute. reflexivity.
Defined.

(** The two severities side by side, with [ignore_exceptions] set: an
    integer as [data] is a hard failure, a [bytes] object as an element is
    an inline error and the stream goes on. *)
Lemma mixed_severity :
  parse Sample.resolve (Obj (PyInt 5)) false true
  = ([], Some (TypeError
                 "Input data must be a non-string iterable object."))
  /\ parse Sample.resolve
       (Iter (PyBytes "sda" :: Sample.head_bc ++ [PyStr Sample.procs_line]))
       false true
     = ([Error (TypeError "Input line must be a 'str' object.") (PyBytes "sda");
         Success Sample.procs_record_bc], None).
Proof. split; vm_compute; reflexivity. Qed.

Lemma input_fault_severity_witness :
  is_str (PyBytes "sda") = false
  /\ parse Sample.resolve
       (Iter ([] ++ PyBytes "sda" :: Sample.head_bc ++ [PyStr Sample.procs_line]))
       false true
     = ([Error (TypeError "Input line must be a 'str' object.") (PyBytes "sda");
         Success Sample.procs_record_bc], None).
Proof.
  split; [reflexivity|].
  destruct (input_fault_severity Sample.resolve false []
              (Sample.head_bc ++ [PyStr Sample.procs_line]) (PyBytes "sda"))
    as [_ H]; [reflexivity|].
  rewrite H. vm_compute. reflexivity.
Defined.

Lemma unset_variant_default_witness :
  flag (procs (state_after (fun _ => None) false init
                 [PyStr Sample.procs_marker])) = true
  /\ buff_cache (state_after (fun _ => None) false init
                   [PyStr Sample.procs_marker]) = None
  /\ valid_line (fun _ => None) false
       (state_after (fun _ => None) false init [PyStr Sample.procs_marker])
       Sample.procs_line_extra = true
  /\ parse (fun _ => None)
       (Iter ([PyStr Sample.procs_marker]
              ++ PyStr Sample.procs_line_extra :: [])) false false
     = ([Success Sample.procs_record_ia], None).
Proof.
  split; [vm_compute; reflexivity|].
  split; [vm_compute; reflexivity|].
  split; [vm_compute; reflexivity|].
  destruct (unset_variant_default (fun _ => None) false
              [PyStr Sample.procs_marker] [] Sample.procs_line_extra)
    as [rec [t4 [t5 [_ [_ [_ [_ [_ [_ [Hy [_ H]]]]]]]]]]];
    [vm_compute; reflexivity..|].
  rewrite H by (vm_compute; reflexivity).
  vm_compute in Hy. injection Hy as <-. vm_compute. reflexivity.
Defined.

(** * Further properties *)

Example splitlines_ex1 :
  PyText.splitlines (String "a" (String (ascii_of_nat 13)
                      (String (ascii_of_nat 10) (String "b"
                        (String (ascii_of_nat 10) EmptyString)))))
  = ["a"; "b"].
Proof. reflexivity. Qed.

Example splitlines_ex2 :
  PyText.splitlines (String (ascii_of_nat 10) EmptyString) = [""].
Proof. reflexivity. Qed.

Example rstrip_chars_ex1 : PyText.rstrip_chars "," "3 days, 4:49,," = "3 days, 4:49".
Proof. reflexivity. Qed.

Example uptime_sample :
  Uptime.parse Uptime.sample
  = inr [ ("time", VStr "16:52"); ("uptime", VStr "3 days, 4:49");
          ("users", VStr "5"); ("load_1m", VStr "1.85");
          ("load_5m", VStr "1.90"); ("load_15m", VStr "1.91") ].
Proof. vm_compute. reflexivity. Qed.

Example ini_sample :
  Ini._process Ini.sample
  = [ ("ServerAliveInterval", Ini.Leaf (Some "45"));
      ("bitbucket.org",
        Ini.Sect [("User", Some "hg"); ("Compression", Some "")]) ].
Proof. vm_compute. reflexivity. Qed.

(** ** The stream, further *)

Section StreamExtras.

Variable resolve : string -> option (Z * Z).

Lemma loop_skip (raw ign : bool) (st st' : state) (x : pyobj)
  (r : list pyobj) :
  body resolve raw st x = (st', Continue) ->
  loop resolve raw ign st (x :: r) = loop resolve raw ign st' r.
Proof. intros H. simpl. now rewrite H. Qed.

Lemma is_blank_body (raw : bool) (st : state) (x : pyobj) :
  is_blank x = true -> body resolve raw st x = (st, Continue).
Proof.
  destruct x as [s| | |]; try discriminate. simpl is_blank.
  intros H. apply body_blank. now apply String.eqb_eq.
Qed.

(** X1. Blank lines are invisible: taking them out of the input changes
    neither the values yielded nor the way the generator ends, in any
    mode. *)
Theorem blank_lines_invisible (raw ign : bool) (data : list pyobj) :
  parse resolve (Iter (filter (fun x => negb (is_blank x)) data)) raw ign
  = parse resolve (Iter data) raw ign.
Proof.
  rewrite !parse_iter. generalize init as st.
  induction data as [|x r IH]; intros st; [reflexivity|].
  cbn [filter]. destruct (is_blank x) eqn:Hb; cbn [negb].
  - rewrite (loop_skip raw ign st st x r (is_blank_body raw st x Hb)).
    apply IH.
  - cbn [loop]. destruct (body resolve raw st x) as [st' [|d|e]].
    + apply IH.
    + now rewrite IH.
    + destruct (stream_error e ign x); [reflexivity|now rewrite IH].
Qed.

(** X2. The values yielded for a prefix of the input stay as they are
    when more input follows, and once the generator has ended with an
    exception nothing that follows is looked at. *)
Theorem outputs_grow_by_prefix (raw ign : bool) (l1 l2 : list pyobj) :
  (exists rest,
     fst (parse resolve (Iter (l1 ++ l2)) raw ign)
     = fst (parse resolve (Iter l1) raw ign) ++ rest)
  /\ (forall e, snd (parse resolve (Iter l1) raw ign) = Some e ->
      parse resolve (Iter (l1 ++ l2)) raw ign
      = parse resolve (Iter l1) raw ign).
Proof.
  rewrite !parse_iter. generalize init as st.
  induction l1 as [|x r IH]; intros st.
  - split; [now exists (fst (loop resolve raw ign st l2))|discriminate].
  - rewrite <- app_comm_cons. cbn [loop].
    destruct (body resolve raw st x) as [st' [|d|e]].
    + apply IH.
    + destruct (IH st') as [[rest Hr] He].
      destruct (loop resolve raw ign st' r) as [o1 r1].
      destruct (loop resolve raw ign st' (r ++ l2)) as [o2 r2].
      simpl in *. split.
      * exists rest. now rewrite Hr.
      * intros e H. specialize (He e H). now injection He as -> ->.
    + destruct (stream_error e ign x) as [e'|o].
      * split; [now exists []|reflexivity].
      * destruct (IH st') as [[rest Hr] He].
        destruct (loop resolve raw ign st' r) as [o1 r1].
        destruct (loop resolve raw ign st' (r ++ l2)) as [o2 r2].
        simpl in *. split.
        -- exists rest. now rewrite Hr.
        -- intros e0 H. specialize (He e0 H). now injection He as -> ->.
Qed.

Lemma loop_app_congr (raw ign : bool) (pre a b : list pyobj) :
  (forall st, loop resolve raw ign st a = loop resolve raw ign st b) ->
  forall st, loop resolve raw ign st (pre ++ a)
             = loop resolve raw ign st (pre ++ b).
Proof.
  intros H. induction pre as [|x r IH]; intros st; [apply H|].
  rewrite <- !app_comm_cons. cbn [loop].
  destruct (body resolve raw st x) as [st' [|d|e]].
  - apply IH.
  - now rewrite IH.
  - destruct (stream_error e ign x); [reflexivity|now rewrite IH].
Qed.

Lemma header_tz_again (st : state) (s : string) (b : bool) :
  strip s <> "" ->
  header_tz (set_buff_cache (fst (header_tz (set_buff_cache st b) s)) b) s
  = header_tz (set_buff_cache st b) s.
Proof.
  intros Hs. unfold header_tz.
  destruct (capture_tz_ok (set_buff_cache st b) s Hs) as [z [Hz _]].
  rewrite Hz. cbn [fst].
  assert (E : capture_tz (set_buff_cache (set_tz (set_buff_cache st b) z) b)
                s = inr z) by exact Hz.
  now rewrite E.
Qed.

Lemma header_tz_again_disk (st : state) (s : string) :
  strip s <> "" ->
  header_tz (fst (header_tz st s)) s = header_tz st s.
Proof.
  intros Hs. unfold header_tz.
  destruct (capture_tz_ok st s Hs) as [z [Hz _]]. rewrite Hz. cbn [fst].
  assert (E : capture_tz (set_tz st z) s = inr z) by exact Hz.
  now rewrite E.
Qed.

(** A marker or header line read a second time changes nothing. *)
Lemma body_again (raw : bool) (st : state) (x : pyobj) :
  consumed x = true ->
  exists st', body resolve raw st x = (st', Continue)
              /\ body resolve raw st' x = (st', Continue).
Proof.
  intros Hc. destruct x as [s| | |]; try discriminate. simpl in Hc.
  destruct (String.eqb_spec (strip s) "") as [E|N]; [discriminate|].
  simpl in Hc. destruct (is_marker s) eqn:Hm.
  - destruct (family_set st) eqn:Hf.
    + exists st. now rewrite body_marker_again.
    + pose proof Hf as Hf'. apply orb_false_elim in Hf' as [Hp Hd].
      pose proof Hm as Hm'. unfold is_marker in Hm'.
      destruct (startswith "procs" s) eqn:Hs.
      * eexists. rewrite body_procs_marker by assumption.
        split; [reflexivity|]. now apply body_marker_again.
      * simpl in Hm'. eexists. rewrite body_disk_marker by assumption.
        split; [reflexivity|]. apply body_marker_again; try assumption.
        unfold family_set. simpl. apply orb_true_r.
  - simpl in Hc. unfold is_header in Hc.
    rewrite (body_not_marker resolve raw st s N Hm).
    destruct (is_buff_cache_header s) eqn:Ha.
    + destruct (header_tz_continue (set_buff_cache st true) s N)
        as [z [Hz _]].
      exists (set_tz (set_buff_cache st true) z). split; [exact Hz|].
      rewrite (body_not_marker resolve raw _ s N Hm), Ha.
      pose proof (header_tz_again st s true N) as H.
      rewrite Hz in H. exact H.
    + destruct (is_inact_active_header s) eqn:Hb.
      * destruct (header_tz_continue (set_buff_cache st false) s N)
          as [z [Hz _]].
        exists (set_tz (set_buff_cache st false) z). split; [exact Hz|].
        rewrite (body_not_marker resolve raw _ s N Hm), Ha, Hb.
        pose proof (header_tz_again st s false N) as H.
        rewrite Hz in H. exact H.
      * simpl in Hc. rewrite Hc.
        destruct (header_tz_continue st s N) as [z [Hz _]].
        exists (set_tz st z). split; [exact Hz|].
        rewrite (body_not_marker resolve raw _ s N Hm), Ha, Hb, Hc.
        pose proof (header_tz_again_disk st s N) as H.
        rewrite Hz in H. exact H.
Qed.

(** X3. A marker or header line that comes twice in a row counts once:
    the second copy changes neither the state, the values yielded nor the
    way the generator ends, in any mode. *)
Theorem repeated_header_invisible (raw ign : bool) (pre post : list pyobj)
  (x : pyobj) :
  consumed x = true ->
  parse resolve (Iter (pre ++ x :: x :: post)) raw ign
  = parse resolve (Iter (pre ++ x :: post)) raw ign.
Proof.
  intros Hc. rewrite !parse_iter. apply loop_app_congr. intros st.
  destruct (body_again raw st x Hc) as [st' [H1 H2]].
  rewrite (loop_skip raw ign st st' x (x :: post) H1).
  rewrite (loop_skip raw ign st' st' x post H2).
  now rewrite (loop_skip raw ign st st' x post H1).
Qed.

Lemma body_no_marker_family (raw : bool) (st : state) (x : pyobj) :
  family_set st = false -> is_marker_line x = false ->
  family_set (fst (body resolve raw st x)) = false.
Proof.
  intros Hf Hm.
  destruct (body_family_step resolve raw st x) as [[H1 [H2 _]]|[_ H]].
  - unfold family_set in *. now rewrite H1, H2.
  - exfalso. destruct x as [s| | |]; try (simpl in H; congruence).
    simpl in Hm.
    destruct (String.eqb_spec (strip s) "") as [E|N].
    + rewrite body_blank in H by assumption. simpl in H. congruence.
    + simpl in Hm. rewrite (body_not_marker resolve raw st s N Hm) in H.
      destruct (is_buff_cache_header s);
        [|destruct (is_inact_active_header s);
          [|destruct (is_disk_header s)]];
        try match type of H with
          | context [header_tz ?t s] =>
              destruct (header_tz_continue t s N) as [z [Hz _]];
              rewrite Hz in H
          end;
        unfold family_set in *; simpl in H; congruence.
Qed.

(** X4. Data before any marker is not vmstat data: as long as no
    marker line has been read, every element that is neither blank, a
    marker nor a header raises [ParseError] when it is a text (lines
    243-246), whatever its tokens are, in raw mode and outside it. *)
Theorem data_before_marker_fails (raw : bool) (pre : list pyobj)
  (s : string) :
  forallb (fun x => negb (is_marker_line x)) pre = true ->
  emitting (PyStr s) = true ->
  snd (body resolve raw (state_after resolve raw init pre) (PyStr s))
  = Raise (ParseError "Not vmstat data").
Proof.
  intros Hpre He.
  assert (Hf : family_set (state_after resolve raw init pre) = false).
  { assert (G : forall st, family_set st = false ->
                family_set (state_after resolve raw st pre) = false).
    { induction pre as [|x r IH]; intros st Hst; [exact Hst|].
      simpl in Hpre. apply andb_prop in Hpre as [Hx Hr].
      simpl. apply (IH Hr). apply body_no_marker_family; [exact Hst|].
      now destruct (is_marker_line x). }
    now apply G. }
  rewrite (body_emitting resolve raw _ s He). simpl.
  unfold emit_record. now rewrite line_parsing_unset.
Qed.

End StreamExtras.

(** ** The records, further *)

Section RecordExtras.

Variable resolve : string -> option (Z * Z).

Lemma header_tz_no_yield (st : state) (s : string) (rec : dict) :
  snd (header_tz st s) <> Yield rec.
Proof. unfold header_tz. now destruct (capture_tz st s). Qed.

(** X5. The [raw] flag has no part in validation.  Raw mode and the
    default mode leave the same state and skip the same elements; an
    exception of raw mode is the exception of the default mode; and a
    record of the default mode is [_process] of the record raw mode yields
    for the same element (line 244). *)
Theorem raw_and_default_agree (st : state) (x : pyobj) :
  fst (body resolve false st x) = fst (body resolve true st x)
  /\ (snd (body resolve true st x) = Continue
      <-> snd (body resolve false st x) = Continue)
  /\ (forall e, snd (body resolve true st x) = Raise e ->
      snd (body resolve false st x) = Raise e)
  /\ (forall rec, snd (body resolve false st x) = Yield rec ->
      exists ol, snd (body resolve true st x) = Yield ol
                 /\ _process resolve ol = inr rec).
Proof.
  assert (Same : forall r : state * signal,
            (forall rec, snd r <> Yield rec) ->
            fst r = fst r
            /\ (snd r = Continue <-> snd r = Continue)
            /\ (forall e, snd r = Raise e -> snd r = Raise e)
            /\ (forall rec, snd r = Yield rec ->
                exists ol, snd r = Yield ol
                           /\ _process resolve ol = inr rec)).
  { intros r Hr. repeat split; auto. intros rec H. now elim (Hr rec). }
  destruct x as [s| | |]; try (apply Same; discriminate).
  unfold body.
  repeat match goal with
         | |- context [if ?c then _ else _] => destruct c
         end;
    try (apply Same; first [discriminate | apply header_tz_no_yield]).
  cbn [fst snd]. unfold emit_record.
  destruct (line_parsing st s) as [e|[|p o]].
  - repeat split; auto; discriminate.
  - repeat split; auto; discriminate.
  - destruct (_process resolve (p :: o)) as [e|d] eqn:E.
    + repeat split; try discriminate.
    + repeat split; try discriminate.
      intros rec [= <-]. now exists (p :: o).
Qed.

Lemma convert_fields_raises (d : dict) (e : exn) :
  convert_fields d = inl e -> exists t, e = ConversionFault t.
Proof.
  induction d as [|[k v] r IH]; simpl; [discriminate|].
  destruct (in_int_list k).
  - destruct v as [|s|z]; simpl.
    + destruct (convert_fields r); simpl; [|discriminate].
      intros [= <-]. now apply IH.
    + destruct (parse_int s); simpl.
      * destruct (convert_fields r); simpl; [|discriminate].
        intros [= <-]. now apply IH.
      * intros [= <-]. now exists s.
    + destruct (convert_fields r); simpl; [|discriminate].
      intros [= <-]. now apply IH.
  - simpl. destruct (convert_fields r); simpl; [|discriminate].
    intros [= <-]. now apply IH.
Qed.

(** The exceptions of the normalization step, with the key that is missing
    when it is a [KeyError]. *)
Lemma process_raises (d : dict) (e : exn) :
  _process resolve d = inl e ->
  (exists t, e = ConversionFault t)
  \/ (e = KeyError "timestamp" /\ get "timestamp" d = None)
  \/ (e = KeyError "timezone" /\ get "timezone" d = None)
  \/ (exists t, e = TimestampFault t).
Proof.
  unfold _process, bind, lookup.
  destruct (convert_fields d) as [x|dc] eqn:Ec.
  - intros [= <-]. left. now apply convert_fields_raises in Ec.
  - rewrite (convert_fields_other _ _ "timestamp" Ec eq_refl).
    destruct (get "timestamp" d) as [t|].
    + unfold ret at 1. destruct (truthy t); [|discriminate].
      rewrite (convert_fields_other _ _ "timezone" Ec eq_refl).
      destruct (get "timezone" d) as [z|].
      * unfold ret at 1, timestamp.
        destruct (resolve _) as [[n u]|]; [discriminate|].
        intros [= <-]. right. right. right. now eexists.
      * intros [= <-]. right. right. left. now split.
    + intros [= <-]. right. left. now split.
Qed.

(** Every record the field extractor builds has the two time keys. *)
Lemma line_parsing_has_keys (st : state) (s : string) (ol : dict) :
  line_parsing st s = inr ol -> ol <> [] ->
  get "timestamp" ol <> None /\ get "timezone" ol <> None.
Proof.
  unfold line_parsing, bind. intros H Hne.
  destruct (flag (disk st)) eqn:Hd.
  - destruct (if flag (procs st) then _ else _) as [e|o1];
      [discriminate|].
    destruct (disk_record_time _ _ _ H) as [H1 [_ [_ H2]]].
    rewrite H1. split; [|discriminate].
    destruct (flag (tstamp st)); [|now rewrite H2].
    destruct H2 as [t [_ ->]]. discriminate.
  - destruct (flag (procs st)) eqn:Hp.
    + destruct (procs_record st (split_ws 17 (strip s))) as [e|o1] eqn:E;
        [discriminate|].
      injection H as <-.
      destruct (procs_record_time _ _ _ E) as [H1 [_ [_ H2]]].
      rewrite H1. split; [|discriminate].
      destruct (flag (tstamp st)); [|now rewrite H2].
      destruct H2 as [t [_ ->]]. discriminate.
    + injection H as <-. now elim Hne.
Qed.

Lemma line_parsing_raises (st : state) (s : string) (e : exn) :
  line_parsing st s = inl e -> e = IndexError.
Proof.
  unfold line_parsing, bind.
  destruct (flag (procs st)).
  - destruct (procs_record st (split_ws 17 (strip s))) as [x|o1] eqn:E.
    + intros [= <-]. now apply procs_record_raises in E.
    + destruct (flag (disk st)); [|discriminate].
      apply disk_record_raises.
  - unfold ret at 1. destruct (flag (disk st)); [|discriminate].
    apply disk_record_raises.
Qed.

(** X6. What one pass through the body can raise, in every state.  An
    element that is not a text raises the [TypeError] of line 161.  A text
    raises [IndexError] (too few tokens) or the [ParseError] of line 246,
    and outside raw mode a fault of the normalization step.  It never
    raises [KeyError]: the records the parser hands to [_process] always
    have the keys [timestamp] and [timezone] that lines 121-122 read. *)
Theorem body_raises_only (raw : bool) (st : state) (x : pyobj) (e : exn) :
  snd (body resolve raw st x) = Raise e -> body_exception raw x e.
Proof.
  intros H. unfold body_exception.
  destruct x as [s| | |]; simpl is_str; cbn iota;
    try (simpl in H; now injection H as <-).
  assert (Hk : snd (body resolve raw st (PyStr s)) <> Continue)
    by (rewrite H; discriminate).
  apply body_state_kept in Hk as [_ He].
  rewrite (body_emitting resolve raw st s He) in H. simpl in H.
  unfold emit_record in H.
  destruct (line_parsing st s) as [x|[|p o]] eqn:El.
  - injection H as <-. left. now apply line_parsing_raises in El.
  - injection H as <-. right. now left.
  - destruct raw; [discriminate|].
    destruct (_process resolve (p :: o)) as [x|d] eqn:Ep; [|discriminate].
    injection H as <-. right. right. split; [reflexivity|].
    destruct (line_parsing_has_keys st s (p :: o) El) as [K1 K2];
      [discriminate|].
    destruct (process_raises _ _ Ep)
      as [[t ->]|[[_ K]|[[_ K]|[t ->]]]]; try congruence.
    + exists t. now left.
    + exists t. now right.
Qed.

Lemma display_keys (items : list (string * result value)) (d : dict) :
  display items = inr d -> map fst d = map fst items.
Proof.
  revert d; induction items as [|[k e] rest IH]; intros d; simpl.
  - now intros [= <-].
  - destruct e as [x|v]; simpl; [discriminate|].
    destruct (display rest) as [x|d'] eqn:E; simpl; [discriminate|].
    intros [= <-]. simpl. now rewrite (IH d' eq_refl).
Qed.

Lemma convert_fields_keys (d dc : dict) :
  convert_fields d = inr dc -> map fst dc = map fst d.
Proof.
  revert dc; induction d as [|[k v] r IH]; intros dc; simpl.
  - now intros [= <-].
  - destruct (if in_int_list k then convert_to_int v else ret v)
      as [x|v']; simpl; [discriminate|].
    destruct (convert_fields r) as [x|r'] eqn:E; simpl; [discriminate|].
    intros [= <-]. simpl. now rewrite (IH r' eq_refl).
Qed.

Lemma set_new_key (k : string) (v : value) (d : dict) :
  get k d = None -> map fst (set k v d) = map fst d ++ [k].
Proof.
  induction d as [|[k' v'] r IH]; simpl; [reflexivity|].
  destruct (String.eqb k k'); [discriminate|].
  intros H. simpl. now rewrite IH.
Qed.

Lemma line_parsing_keys (st : state) (s : string) (ol : dict) :
  line_parsing st s = inr ol -> ol <> [] ->
  map fst ol = if flag (disk st) then disk_keys else procs_keys.
Proof.
  unfold line_parsing, bind. intros H Hne.
  destruct (flag (disk st)).
  - destruct (if flag (procs st) then _ else _) as [e|o1];
      [discriminate|].
    unfold disk_record in H. now apply display_keys in H.
  - destruct (flag (procs st)).
    + destruct (procs_record st (split_ws 17 (strip s))) as [e|o1] eqn:E;
        [discriminate|].
      injection H as <-. unfold procs_record in E.
      now apply display_keys in E.
    + injection H as <-. now elim Hne.
Qed.

(** X7. The keys of a record depend on the family and on timestamp
    detection only: a success has the keys of the display of its family,
    in the order written there, followed outside raw mode by [epoch] and
    [epoch_utc] when timestamps are on.  No line adds, drops or reorders
    a key. *)
Theorem record_keys (raw : bool) (pre : list pyobj) (x : pyobj)
  (rec : dict) :
  let st := state_after resolve raw init pre in
  snd (body resolve raw st x) = Yield rec ->
  map fst rec
  = (if flag (disk st) then disk_keys else procs_keys) ++ epoch_keys raw st.
Proof.
  intros st Hy.
  assert (Hwf : wf st) by (apply state_after_wf, wf_init).
  apply body_yield in Hy as [s [-> [_ Hy]]].
  apply emit_record_yield in Hy as [ol [Hl [Hne Hrec]]].
  pose proof (line_parsing_keys st s ol Hl Hne) as Hk.
  destruct (line_parsing_time st s ol Hwf Hl Hne) as [Htz [He [Hu Hts]]].
  unfold epoch_keys. destruct raw; cbn [negb andb].
  - subst rec. now rewrite app_nil_r.
  - destruct (process_inv resolve _ _ Hrec) as [dc [tsv [Hc [Ht Hr]]]].
    rewrite (convert_fields_other _ _ "timestamp" Hc eq_refl) in Ht.
    pose proof (convert_fields_keys _ _ Hc) as Hkc.
    pose proof (convert_fields_other _ _ "epoch" Hc eq_refl) as He'.
    pose proof (convert_fields_other _ _ "epoch_utc" Hc eq_refl) as Hu'.
    rewrite He in He'. rewrite Hu in Hu'.
    destruct (flag (tstamp st)).
    + destruct Hts as [t [Hn Hg]]. rewrite Hg in Ht. injection Ht as <-.
      assert (Htr : truthy (VStr t) = true).
      { simpl. unfold tokens in Hn. apply nth_error_In in Hn.
        destruct (flag (disk st)); apply split_ws_nonempty in Hn;
          now destruct (String.eqb_spec t ""). }
      rewrite Htr in Hr. destruct Hr as [tzv [n [u [_ [_ ->]]]]].
      rewrite set_new_key
        by (rewrite get_set_other by discriminate; exact Hu').
      rewrite set_new_key by exact He'.
      rewrite Hkc, Hk, <- app_assoc. reflexivity.
    + rewrite Hts in Ht. injection Ht as <-. simpl in Hr. subst rec.
      now rewrite Hkc, Hk, app_nil_r.
Qed.

(** The zone code is captured only with timestamp detection on, and the
    timestamp flag is set only with the family. *)
Lemma tz_invariant (raw : bool) (st : state) (x : pyobj) :
  (tz st <> None -> flag (tstamp st) = true)
  /\ (flag (tstamp st) = true -> family_set st = true) ->
  (tz (fst (body resolve raw st x)) <> None ->
   flag (tstamp (fst (body resolve raw st x))) = true)
  /\ (flag (tstamp (fst (body resolve raw st x))) = true ->
      family_set (fst (body resolve raw st x)) = true).
Proof.
  intros [I1 I2].
  destruct x as [s| | |]; try (now split).
  destruct (String.eqb_spec (strip s) "") as [E|N].
  - rewrite body_blank by assumption. now split.
  - destruct (is_marker s) eqn:Hm.
    + destruct (family_set st) eqn:Hf.
      * rewrite body_marker_again by assumption. now split.
      * assert (Ht : flag (tstamp st) = false).
        { destruct (flag (tstamp st)); [|reflexivity].
          now specialize (I2 eq_refl). }
        assert (Hz : tz st = None).
        { destruct (tz st); [|reflexivity].
          assert (C : flag (tstamp st) = true) by (apply I1; discriminate).
          congruence. }
        pose proof Hf as Hf'. apply orb_false_elim in Hf' as [Hp Hd].
        unfold is_marker in Hm.
        destruct (startswith "procs" s) eqn:Hs.
        -- rewrite body_procs_marker by assumption. simpl.
           split; [now rewrite Hz|reflexivity].
        -- simpl in Hm. rewrite body_disk_marker by assumption. simpl.
           split; [now rewrite Hz|intros _; apply orb_true_r].
    + rewrite (body_not_marker resolve raw st s N Hm).
      assert (G : forall st0,
                 tstamp st0 = tstamp st -> family_set st0 = family_set st ->
                 (tz (fst (header_tz st0 s)) <> None ->
                  flag (tstamp (fst (header_tz st0 s))) = true)
                 /\ (flag (tstamp (fst (header_tz st0 s))) = true ->
                     family_set (fst (header_tz st0 s)) = true)).
      { intros st0 H1 H2. unfold header_tz, capture_tz.
        destruct (flag (tstamp st0)) eqn:Hf0.
        - destruct (last_item (split (strip s))); simpl;
            rewrite ?Hf0; (split; [reflexivity|]);
            intros _; change (family_set st0 = true);
            rewrite H2; apply I2; now rewrite <- H1.
        - simpl. rewrite Hf0. split; [now intros C|discriminate]. }
      destruct (is_buff_cache_header s);
        [|destruct (is_inact_active_header s);
          [|destruct (is_disk_header s)]];
        try (apply G; reflexivity).
      now split.
Qed.

(** X8. With timestamp detection off, every record has a null
    [timestamp] and a null [timezone]: the zone code of a header is
    captured only when the marker line announced timestamps (lines 184,
    189, 193 and 220-221). *)
Theorem no_timestamp_no_timezone (raw : bool) (pre : list pyobj)
  (x : pyobj) (rec : dict) :
  let st := state_after resolve raw init pre in
  snd (body resolve raw st x) = Yield rec ->
  flag (tstamp st) = false ->
  tz st = None
  /\ get "timestamp" rec = Some VNone /\ get "timezone" rec = Some VNone.
Proof.
  intros st Hy Hf.
  assert (Hwf : wf st) by (apply state_after_wf, wf_init).
  assert (Hinv : (tz st <> None -> flag (tstamp st) = true)
                 /\ (flag (tstamp st) = true -> family_set st = true)).
  { unfold st. clear. generalize init, (conj (fun H : tz init <> None =>
      False_ind (flag (tstamp init) = true) (H eq_refl))
      (fun H : flag (tstamp init) = true =>
         False_ind (family_set init = true) (Bool.diff_false_true H))).
    induction pre as [|y r IH]; intros st0 H0; [exact H0|].
    simpl. apply IH. now apply tz_invariant. }
  assert (Hz : tz st = None).
  { destruct (tz st) eqn:E; [|reflexivity].
    destruct Hinv as [I1 _].
    assert (C : flag (tstamp st) = true) by (apply I1; discriminate).
    congruence. }
  split; [exact Hz|].
  apply body_yield in Hy as [s [-> [_ Hy]]].
  apply emit_record_yield in Hy as [ol [Hl [Hne Hrec]]].
  destruct (line_parsing_time st s ol Hwf Hl Hne) as [Htz [_ [_ Hts]]].
  rewrite Hf in Hts. rewrite Hz in Htz. simpl in Htz.
  destruct raw; [now subst rec|].
  pose proof (process_get resolve _ _ "timestamp" Hrec) as P1.
  pose proof (process_get resolve _ _ "timezone" Hrec) as P2.
  rewrite Hts in P1. rewrite Htz in P2.
  destruct P1 as [v1 [-> [= <-]]]; try discriminate.
  destruct P2 as [v2 [-> [= <-]]]; try discriminate.
  now split.
Qed.

(** X9. The normalization step converts the fields of [int_list] and no
    other: the value of every other key that the record had, the device
    name and the two time fields among them, is the value it has
    afterwards, and the keys come first in the order they had (lines
    117-119). *)
Theorem process_keeps_other_fields (d rec : dict) :
  _process resolve d = inr rec ->
  (forall k, in_int_list k = false -> k <> "epoch" -> k <> "epoch_utc" ->
     get k rec = get k d)
  /\ firstn (length d) (map fst rec) = map fst d.
Proof.
  intros H. split.
  - intros k Hk N1 N2. pose proof (process_get resolve _ _ k H N1 N2) as P.
    rewrite Hk in P. destruct (get k d) as [v|]; [|exact P].
    now destruct P as [v' [-> [= ->]]].
  - destruct (process_inv resolve _ _ H) as [dc [tsv [Hc [_ Hr]]]].
    pose proof (convert_fields_keys _ _ Hc) as Hk.
    assert (Hset : forall k v (m : dict),
              exists l, map fst (set k v m) = map fst m ++ l).
    { intros k v m. induction m as [|[k' v'] r [l IH]]; [now exists [k]|].
      simpl. destruct (String.eqb k k'); simpl.
      - exists []. now rewrite app_nil_r.
      - exists l. now rewrite IH. }
    assert (Hfirst : forall (a b : list string),
              firstn (length a) (a ++ b) = a).
    { intros a b. induction a as [|y a IH]; simpl; [reflexivity|].
      now rewrite IH. }
    assert (Hld : length d = length (map fst dc)).
    { now rewrite Hk, length_map. }
    rewrite Hld, <- Hk.
    destruct (truthy tsv).
    + destruct Hr as [tzv [n [u [_ [_ ->]]]]].
      destruct (Hset "epoch" (VInt n) dc) as [l1 E1].
      match goal with
      | |- context [set "epoch_utc" ?v _] =>
          destruct (Hset "epoch_utc" v (set "epoch" (VInt n) dc))
            as [l2 E2]
      end.
      rewrite E2, E1, <- app_assoc. apply Hfirst.
    + subst rec. rewrite <- (app_nil_r (map fst dc)) at 2. apply Hfirst.
Qed.

(** X10. A record without the key [timestamp] is never normalized:
    [_process] raises, [KeyError] at line 121 unless a numeric field failed
    to convert before. *)
Theorem process_needs_timestamp_key (d : dict) :
  get "timestamp" d = None ->
  exists e, _process resolve d = inl e
            /\ (e = KeyError "timestamp"
                \/ exists t, e = ConversionFault t).
Proof.
  intros H. unfold _process, bind, lookup.
  destruct (convert_fields d) as [x|dc] eqn:Ec.
  - exists x. split; [reflexivity|]. right.
    now apply convert_fields_raises in Ec.
  - rewrite (convert_fields_other _ _ "timestamp" Ec eq_refl), H.
    exists (KeyError "timestamp"). split; [reflexivity|now left].
Qed.

End RecordExtras.

(** ** jc.parsers.uptime *)

Section UptimeProperties.

Import PyText.

Lemma splitlines_first (l rest : string) :
  no_linebreak l = true ->
  splitlines (l ++ lf ++ rest) = l :: splitlines rest.
Proof.
  induction l as [|c t IH]; intros H.
  - reflexivity.
  - cbn [no_linebreak] in H. apply andb_prop in H as [Hc Ht].
    apply negb_true_iff in Hc.
    rewrite append_cons. cbn [splitlines]. rewrite Hc.
    now rewrite (IH Ht).
Qed.

Lemma splitlines_plain (l : string) :
  no_linebreak l = true -> l <> "" -> splitlines l = [l].
Proof.
  induction l as [|c t IH]; intros H N; [now elim N|].
  cbn [no_linebreak] in H. apply andb_prop in H as [Hc Ht].
  apply negb_true_iff in Hc.
  cbn [splitlines]. rewrite Hc.
  destruct t as [|c' t']; [reflexivity|].
  now rewrite (IH Ht) by discriminate.
Qed.

(** X11. What [uptime.parse] returns, by its input.  A text with no line
    gives the empty dictionary.  Otherwise only the tokens of the first
    line count: with twelve or more the result has the six keys [time],
    [uptime], [users], [load_1m], [load_5m], [load_15m], in this order;
    with fewer, a blank first line included, the function raises
    [IndexError]. *)
Theorem uptime_outcome (data : string) :
  match splitlines data with
  | [] => Uptime.parse data = inr []
  | line0 :: _ =>
      if (12 <=? length (split line0))%nat
      then exists d, Uptime.parse data = inr d /\ map fst d = Uptime.keys
      else Uptime.parse data = inl IndexError
  end.
Proof.
  unfold Uptime.parse. destruct (splitlines data) as [|l rest].
  - reflexivity.
  - destruct (Nat.leb_spec 12 (length (split l))) as [H|H].
    + destruct (item_long (split l) 0) as [t0 H0]; [lia|].
      destruct (item_long (split l) 5) as [t5 H5]; [lia|].
      destruct (item_long (split l) 9) as [t9 H9]; [lia|].
      destruct (item_long (split l) 10) as [t10 H10]; [lia|].
      destruct (item_long (split l) 11) as [t11 H11]; [lia|].
      rewrite (item_ok _ _ _ H0), (item_ok _ _ _ H5), (item_ok _ _ _ H9),
        (item_ok _ _ _ H10), (item_ok _ _ _ H11).
      eexists. split; reflexivity.
    + unfold bind.
      destruct (item (split l) 0) as [e|v0] eqn:E0;
        [now rewrite (item_raises _ _ _ E0)|].
      destruct (item (split l) 5) as [e|v5] eqn:E5;
        [now rewrite (item_raises _ _ _ E5)|].
      destruct (item (split l) 9) as [e|v9] eqn:E9;
        [now rewrite (item_raises _ _ _ E9)|].
      destruct (item (split l) 10) as [e|v10] eqn:E10;
        [now rewrite (item_raises _ _ _ E10)|].
      rewrite item_short by lia. reflexivity.
Qed.

(** X12. Only the first line is read: what follows the first line feed
    has no effect on the result, success or exception.  The line before it
    must not be empty: a text that starts with a line feed raises, while
    the empty text gives the empty dictionary. *)
Theorem uptime_first_line_only (l rest : string) :
  l <> "" -> no_linebreak l = true ->
  Uptime.parse (l ++ lf ++ rest) = Uptime.parse l.
Proof.
  intros N H. unfold Uptime.parse.
  now rewrite (splitlines_first l rest H), (splitlines_plain l H N).
Qed.

Lemma rstrip_chars_end (s : string) :
  endswith "," (rstrip_chars "," s) = false.
Proof.
  induction s as [|c t IH]; [reflexivity|].
  cbn [rstrip_chars]. destruct (rstrip_chars "," t) as [|a u].
  - cbn [char_in]. rewrite orb_false_r.
    destruct (Ascii.eqb_spec c ",") as [->|N]; [reflexivity|].
    cbn [endswith]. rewrite orb_false_r.
    destruct (String.eqb_spec "," (String c "")) as [E|_];
      [|reflexivity].
    injection E as E. now elim N.
  - cbn [endswith] in *. rewrite IH, orb_false_r.
    now destruct (String.eqb_spec "," (String c (String a u))).
Qed.

(** X13. The fields of a result are clean: [uptime] never ends with a
    comma (line 29), and each of the other five fields is one token of the
    line, a non-empty text without whitespace. *)
Theorem uptime_fields_clean (data : string) (d : dict) :
  Uptime.parse data = inr d ->
  forall k v, In (k, v) d ->
    exists t, v = VStr t
              /\ if String.eqb k "uptime"
                 then endswith "," t = false
                 else no_space t /\ t <> "".
Proof.
  unfold Uptime.parse. destruct (splitlines data) as [|l rest].
  - intros [= <-] k v [].
  - unfold bind.
    assert (Tok : forall i v, item (split l) i = inr v ->
                  exists t, v = VStr t /\ no_space t /\ t <> "").
    { intros i v Hv. apply item_inr in Hv as [t [Ht ->]].
      apply nth_error_In in Ht. exists t. split; [reflexivity|]. split.
      - now apply split_no_space in Ht.
      - now apply split_ws_nonempty in Ht. }
    destruct (item (split l) 0) as [e|v0] eqn:E0; [discriminate|].
    destruct (item (split l) 5) as [e|v5] eqn:E5; [discriminate|].
    destruct (item (split l) 9) as [e|v9] eqn:E9; [discriminate|].
    destruct (item (split l) 10) as [e|v10] eqn:E10; [discriminate|].
    destruct (item (split l) 11) as [e|v11] eqn:E11; [discriminate|].
    intros [= <-] k v Hin. cbn in Hin.
    destruct Hin as [H|[H|[H|[H|[H|[H|[]]]]]]]; injection H as <- <-;
      cbn [String.eqb Ascii.eqb Bool.eqb andb];
      eauto using rstrip_chars_end.
Qed.

End UptimeProperties.

(** ** jc.parsers.ini *)

Section IniProperties.

Import PyText.

Lemma startswith_one (a c : ascii) (t : string) :
  startswith (String a "") (String c t) = Ascii.eqb a c.
Proof.
  unfold startswith. cbn [String.prefix].
  destruct (ascii_dec a c) as [->|N].
  - rewrite Ascii.eqb_refl. now destruct t.
  - now destruct (Ascii.eqb_spec a c).
Qed.

Lemma endswith_app (p s : string) : endswith p (s ++ p) = true.
Proof.
  induction s as [|c t IH].
  - destruct p; cbn [append endswith]; now rewrite String.eqb_refl.
  - rewrite append_cons. cbn [endswith]. rewrite IH. apply orb_true_r.
Qed.

Lemma endswith_cons (p : string) (c : ascii) (s : string) :
  endswith p s = true -> endswith p (String c s) = true.
Proof. intros H. cbn [endswith]. rewrite H. apply orb_true_r. Qed.

Lemma drop_last_app (s : string) (c : ascii) :
  drop_last (s ++ String c "") = s.
Proof.
  induction s as [|a t IH]; [reflexivity|].
  rewrite append_cons. cbn [drop_last]. rewrite IH.
  now destruct t.
Qed.

(** X14. Quoting round trip: a text put between two double quotation
    marks, or between two single ones, comes back as it was, whatever it
    holds, quotation marks included: one layer is taken off and no
    more. *)
Theorem remove_quotes_round_trip (s : string) :
  Ini._remove_quotes (Some (dquote ++ s ++ dquote)%string) = s
  /\ Ini._remove_quotes (Some (squote ++ s ++ squote)%string) = s.
Proof.
  unfold Ini._remove_quotes, dquote, squote. split.
  - rewrite append_cons. cbn [append]. rewrite startswith_one.
    rewrite endswith_cons by apply endswith_app.
    cbn [andb Ascii.eqb Bool.eqb ascii_of_nat]. unfold inner. cbn [tail].
    change (ascii_of_nat 34) with (Ascii false true false false false true
                                     false false).
    cbn. apply drop_last_app.
  - rewrite append_cons. cbn [append]. rewrite !startswith_one.
    rewrite (endswith_cons "'") by apply endswith_app.
    change (Ascii.eqb (ascii_of_nat 34) "'") with false.
    change (Ascii.eqb "'" "'") with true.
    cbn [andb]. unfold inner. cbn [tail]. apply drop_last_app.
Qed.

Lemma remove_quotes_plain (v : option string) :
  Ini.plain v = true -> Some (Ini._remove_quotes v) = v.
Proof.
  destruct v as [s|]; [|discriminate]. unfold Ini.plain, Ini._remove_quotes.
  intros H. apply andb_prop in H as [H1 H2].
  apply negb_true_iff in H1. apply negb_true_iff in H2.
  now rewrite H1, H2.
Qed.

(** X15. After [ini._process] no value is [None] any more and the
    dictionary has the shape it had: the same keys in the same order, the
    same sections with the same option names in the same order.  Each
    value is what [_remove_quotes] gives for the value that was there, one
    level down inside a section (lines 121-127). *)
Theorem ini_process_shape (d : Ini.ini_dict) :
  Ini.shape (Ini._process d) = Ini.shape d
  /\ Ini.leaves (Ini._process d)
     = map (fun v => Some (Ini._remove_quotes v)) (Ini.leaves d)
  /\ (forall v, In v (Ini.leaves (Ini._process d)) -> v <> None).
Proof.
  assert (H12 : Ini.shape (Ini._process d) = Ini.shape d
                /\ Ini.leaves (Ini._process d)
                   = map (fun v => Some (Ini._remove_quotes v))
                       (Ini.leaves d)).
  { induction d as [|[k [v|items]] r [IH1 IH2]]; [now split|..].
    - split.
      + cbn. unfold Ini.shape, Ini._process in IH1. now rewrite IH1.
      + cbn. unfold Ini.leaves, Ini._process in IH2. now rewrite IH2.
    - split.
      + cbn. unfold Ini.shape, Ini._process in IH1. rewrite IH1.
        now rewrite map_map.
      + cbn. unfold Ini.leaves, Ini._process in IH2. rewrite IH2.
        now rewrite map_app, !map_map. }
  destruct H12 as [H1 H2]. repeat split; try assumption.
  intros v Hin. rewrite H2 in Hin. apply in_map_iff in Hin as [w [<- _]].
  discriminate.
Qed.

(** X16. A dictionary whose values are all texts, none within a pair of
    like quotation marks, is left as it is by [ini._process]. *)
Theorem ini_process_plain (d : Ini.ini_dict) :
  forallb Ini.plain (Ini.leaves d) = true -> Ini._process d = d.
Proof.
  induction d as [|[k [v|items]] r IH]; intros H; [reflexivity|..].
  - cbn in H. apply andb_prop in H as [Hv Hr].
    cbn. unfold Ini._process in IH. rewrite (IH Hr).
    now rewrite (remove_quotes_plain v Hv).
  - unfold Ini.leaves in H. cbn [flat_map snd] in H.
    rewrite forallb_app in H. apply andb_prop in H as [Hi Hr].
    cbn. unfold Ini._process in IH. rewrite (IH Hr). do 3 f_equal.
    clear - Hi. induction items as [|[key value] t IHt]; [reflexivity|].
    cbn in Hi. apply andb_prop in Hi as [Hv Ht].
    cbn. now rewrite (remove_quotes_plain value Hv), (IHt Ht).
Qed.

End IniProperties.

(** ** The further properties at sample inputs *)

Lemma repeated_header_invisible_witness :
  consumed (PyStr Sample.buff_cache_header) = true
  /\ parse Sample.resolve
       (Iter ([PyStr Sample.procs_marker]
              ++ PyStr Sample.buff_cache_header
                 :: PyStr Sample.buff_cache_header
                    :: [PyStr Sample.procs_line])) false false
     = ([Success Sample.procs_record_bc], None).
Proof.
  split; [vm_compute; reflexivity|].
  rewrite (repeated_header_invisible Sample.resolve false false
             [PyStr Sample.procs_marker] [PyStr Sample.procs_line]
             (PyStr Sample.buff_cache_header));
    vm_compute; reflexivity.
Defined.

Lemma data_before_marker_fails_witness :
  forallb (fun x => negb (is_marker_line x))
    [PyStr Sample.buff_cache_header] = true
  /\ emitting (PyStr Sample.procs_line) = true
  /\ snd (body Sample.resolve false
            (state_after Sample.resolve false init
               [PyStr Sample.buff_cache_header])
            (PyStr Sample.procs_line))
     = Raise (ParseError "Not vmstat data").
Proof.
  split; [vm_compute; reflexivity|].
  split; [vm_compute; reflexivity|].
  apply (data_before_marker_fails Sample.resolve false
           [PyStr Sample.buff_cache_header] Sample.procs_line);
    vm_compute; reflexivity.
Defined.

Lemma body_raises_only_witness :
  snd (body Sample.resolve false
         (state_after Sample.resolve false init Sample.head_bc)
         (PyStr Sample2.bad_number_line)) = Raise (ConversionFault "n/a")
  /\ body_exception false (PyStr Sample2.bad_number_line)
       (ConversionFault "n/a").
Proof.
  split; [vm_compute; reflexivity|].
  apply (body_raises_only Sample.resolve false
           (state_after Sample.resolve false init Sample.head_bc)).
  vm_compute. reflexivity.
Defined.

Lemma record_keys_witness :
  snd (body Sample.resolve false
         (state_after Sample.resolve false init Sample.head_utc)
         (PyStr Sample.procs_line_t)) = Yield Sample.procs_record_utc
  /\ map fst Sample.procs_record_utc = procs_keys ++ ["epoch"; "epoch_utc"].
Proof.
  split; [vm_compute; reflexivity|].
  rewrite (record_keys Sample.resolve false Sample.head_utc
             (PyStr Sample.procs_line_t) Sample.procs_record_utc);
    vm_compute; reflexivity.
Defined.

Lemma no_timestamp_no_timezone_witness :
  snd (body Sample.resolve false
         (state_after Sample.resolve false init Sample.head_bc)
         (PyStr Sample.procs_line)) = Yield Sample.procs_record_bc
  /\ flag (tstamp (state_after Sample.resolve false init Sample.head_bc))
     = false
  /\ get "timezone" Sample.procs_record_bc = Some VNone.
Proof.
  split; [vm_compute; reflexivity|].
  split; [vm_compute; reflexivity|].
  destruct (no_timestamp_no_timezone Sample.resolve false Sample.head_bc
              (PyStr Sample.procs_line) Sample.procs_record_bc)
    as [_ [_ H]]; [vm_compute; reflexivity..|exact H].
Defined.

Lemma process_keeps_other_fields_witness :
  _process Sample.resolve Sample.raw_record_t
  = inr Sample.normalized_record_t
  /\ get "timezone" Sample.normalized_record_t
     = get "timezone" Sample.raw_record_t.
Proof.
  split; [vm_compute; reflexivity|].
  destruct (process_keeps_other_fields Sample.resolve Sample.raw_record_t
              Sample.normalized_record_t) as [H _];
    [vm_compute; reflexivity|].
  apply H; [reflexivity|discriminate..].
Defined.

Lemma process_needs_timestamp_key_witness :
  get "timestamp" [("free_mem", VStr "2794468")] = None
  /\ exists e, _process Sample.resolve [("free_mem", VStr "2794468")] = inl e
               /\ (e = KeyError "timestamp"
                   \/ exists t, e = ConversionFault t).
Proof.
  split; [reflexivity|].
  apply (process_needs_timestamp_key Sample.resolve). reflexivity.
Defined.

Lemma uptime_first_line_only_witness :
  Uptime.sample <> ""
  /\ PyText.no_linebreak Uptime.sample = true
  /\ Uptime.parse (Uptime.sample ++ PyText.lf ++ "second line")
     = Uptime.parse Uptime.sample.
Proof.
  split; [discriminate|].
  split; [vm_compute; reflexivity|].
  apply uptime_first_line_only; [discriminate|vm_compute; reflexivity].
Defined.

Lemma uptime_fields_clean_witness :
  Uptime.parse Uptime.sample
  = inr [ ("time", VStr "16:52"); ("uptime", VStr "3 days, 4:49");
          ("users", VStr "5"); ("load_1m", VStr "1.85");
          ("load_5m", VStr "1.90"); ("load_15m", VStr "1.91") ]
  /\ exists t, VStr "3 days, 4:49" = VStr t
               /\ PyText.endswith "," t = false.
Proof.
  split; [vm_compute; reflexivity|].
  apply (uptime_fields_clean Uptime.sample _ eq_refl "uptime").
  right. left. reflexivity.
Defined.

Lemma ini_process_plain_witness :
  forallb Ini.plain
    (Ini.leaves [ ("a", Ini.Leaf (Some "1"));
                  ("s", Ini.Sect [("b", Some "x'")]) ]) = true
  /\ Ini._process [ ("a", Ini.Leaf (Some "1"));
                    ("s", Ini.Sect [("b", Some "x'")]) ]
     = [ ("a", Ini.Leaf (Some "1")); ("s", Ini.Sect [("b", Some "x'")]) ].
Proof.
  split; [vm_compute; reflexivity|].
  apply ini_process_plain. vm_compute. reflexivity.
Defined.
